(** * COD-RAG: a shallow embedding of the request handlers and the import
    scripts, and the properties their specification states about them.

    The JavaScript sources are embedded as Rocq functions.  Everything the
    handlers obtain from outside the repository (the MongoDB driver, the
    Fireworks HTTP API, [JSON.parse], [JSON.stringify], the clock, the
    process environment) is an oracle of a [World] record; what a handler
    does to the outside (console output, writes to the HTTP response,
    database and HTTP calls) is recorded, in program order, in a trace of
    events. *)

From Stdlib Require Import String Ascii List ZArith Bool Arith Lia.
From Stdlib Require Import DecimalString DecimalPos.
Import ListNotations.

Open Scope list_scope.
Open Scope string_scope.

(* ================================================================== *)
(** ** JavaScript strings *)
(* ================================================================== *)

(** A JavaScript string is a sequence of code units; one [ascii] stands for
    one code unit, so the embedding covers the code units below 256. *)
Module JsString.

Definition LF : string := String "010" EmptyString.

(** The double quote, as a string. *)
Definition DQ : string := String "034" EmptyString.

(** [s.substring(0, n)]. *)
Fixpoint take (n : nat) (s : string) : string :=
  match n, s with
  | S n', String c s' => String c (take n' s')
  | _, _ => EmptyString
  end.

(** [s.substring(n)]. *)
Fixpoint drop (n : nat) (s : string) : string :=
  match n, s with
  | S n', String _ s' => drop n' s'
  | _, _ => s
  end.

(** [s.startsWith(p)]. *)
Fixpoint starts_with (p s : string) : bool :=
  match p, s with
  | EmptyString, _ => true
  | String a p', String b s' => Ascii.eqb a b && starts_with p' s'
  | String _ _, EmptyString => false
  end.

(** [s.indexOf(p)]: the least position at which [p] occurs in [s], or -1. *)
Fixpoint indexOf (s p : string) : Z :=
  if starts_with p s then 0%Z
  else match s with
       | EmptyString => (-1)%Z
       | String _ s' =>
           let i := indexOf s' p in
           if (i =? -1)%Z then (-1)%Z else (i + 1)%Z
       end.

(** [s.substring(a, b)] for [0 <= a <= b]. *)
Definition substring (s : string) (a b : nat) : string :=
  take (b - a) (drop a s).

(** [p] occurs in [s] at position [i]. *)
Definition occurs_at (p s : string) (i : nat) : Prop :=
  starts_with p (drop i s) = true /\ i + String.length p <= String.length s.

(** Decimal notation of a natural number and of an integer, as
    [String(n)] prints them. *)
Definition of_nat (n : nat) : string :=
  NilZero.string_of_uint (Nat.to_uint n).

Definition of_Z (n : Z) : string :=
  NilZero.string_of_int (Z.to_int n).

End JsString.

(* ================================================================== *)
(** ** JavaScript values *)
(* ================================================================== *)

Module Js.

(** The values a JSON document or a request body can hold, with [undefined]
    for an absent member and [NaN] for what [parseInt] gives without
    digits.  A number is an integer, or a number that is not an integer
    and is carried by its decimal notation. *)
#[warnings="-register-all"]
Inductive JsValue : Type :=
| JsUndefined
| JsNull
| JsBool (b : bool)
| JsNum (n : Z)
| JsReal (notation : string)
| JsNaN
| JsStr (s : string)
| JsArr (items : list JsValue)
| JsObj (fields : list (string * JsValue)).

(** A document returned by the database driver: an object, by its
    members. *)
Definition Document : Type := list (string * JsValue).

(** An [Error] object, by its [name] and [message]. *)
Record Exn : Type := mkExn { exn_name : string; exn_message : string }.

Definition Error (msg : string) : Exn := mkExn "Error" msg.
Definition TypeError (msg : string) : Exn := mkExn "TypeError" msg.
Definition SyntaxError (msg : string) : Exn := mkExn "SyntaxError" msg.

(** The outcome of an expression that may throw. *)
Inductive result (A : Type) : Type :=
| Ok (a : A)
| Throw (e : Exn).
Arguments Ok {A} a.
Arguments Throw {A} e.

(** [!!v] *)
Definition truthy (v : JsValue) : bool :=
  match v with
  | JsUndefined | JsNull | JsNaN => false
  | JsBool b => b
  | JsNum n => negb (n =? 0)%Z
  | JsReal _ => true
  | JsStr s => negb (s =? "")
  | JsArr _ | JsObj _ => true
  end.

(** [a || b] *)
Definition or_else (a b : JsValue) : JsValue :=
  if truthy a then a else b.

(** [`${v}`]: the string a template literal makes of a value.  An object
    prints as its class tag, an array as its members joined by commas with
    [null] and [undefined] printed empty. *)
Fixpoint to_string (v : JsValue) : string :=
  match v with
  | JsUndefined => "undefined"
  | JsNull => "null"
  | JsBool true => "true"
  | JsBool false => "false"
  | JsNum n => JsString.of_Z n
  | JsReal notation => notation
  | JsNaN => "NaN"
  | JsStr s => s
  | JsArr items =>
      (fix join (l : list JsValue) : string :=
         match l with
         | [] => ""
         | x :: r =>
             let sx := match x with
                       | JsUndefined | JsNull => ""
                       | _ => to_string x
                       end in
             match r with
             | [] => sx
             | _ :: _ => sx ++ "," ++ join r
             end
         end) items
  | JsObj _ => "[object Object]"
  end.

(** Member lookup in an object literal. *)
Fixpoint lookup (k : string) (fields : list (string * JsValue)) : JsValue :=
  match fields with
  | [] => JsUndefined
  | (k', v) :: r => if k' =? k then v else lookup k r
  end.

(** [obj[k] = v] on an object literal: replaces the member in place, or
    adds it at the end. *)
Fixpoint assign (k : string) (v : JsValue) (fields : list (string * JsValue))
  : list (string * JsValue) :=
  match fields with
  | [] => [(k, v)]
  | (k', v') :: r => if k' =? k then (k, v) :: r else (k', v') :: assign k v r
  end.

(** [doc.k] for a document. *)
Definition field (d : Document) (k : string) : JsValue := lookup k d.

(** [v.k]: reading a named member.  Reading from [undefined] or [null]
    throws; a primitive has no such member. *)
Definition get (v : JsValue) (k : string) : result JsValue :=
  match v with
  | JsUndefined =>
      Throw (TypeError ("Cannot read properties of undefined (reading '" ++ k ++ "')"))
  | JsNull =>
      Throw (TypeError ("Cannot read properties of null (reading '" ++ k ++ "')"))
  | JsObj fields => Ok (lookup k fields)
  | JsArr items =>
      Ok (if k =? "length" then JsNum (Z.of_nat (List.length items)) else JsUndefined)
  | JsStr s =>
      Ok (if k =? "length" then JsNum (Z.of_nat (String.length s)) else JsUndefined)
  | _ => Ok JsUndefined
  end.

(** [v[i]]: reading an indexed member. *)
Definition get_index (v : JsValue) (i : nat) : result JsValue :=
  match v with
  | JsUndefined =>
      Throw (TypeError ("Cannot read properties of undefined (reading '"
                          ++ JsString.of_nat i ++ "')"))
  | JsNull =>
      Throw (TypeError ("Cannot read properties of null (reading '"
                          ++ JsString.of_nat i ++ "')"))
  | JsObj fields => Ok (lookup (JsString.of_nat i) fields)
  | JsArr items => Ok (nth i items JsUndefined)
  | JsStr s =>
      Ok (match String.get i s with
          | Some c => JsStr (String c EmptyString)
          | None => JsUndefined
          end)
  | _ => Ok JsUndefined
  end.

(** White space, as [parseInt] and [trim] skip it. *)
Definition is_space (c : ascii) : bool :=
  let n := nat_of_ascii c in
  ((9 <=? n) && (n <=? 13) || (n =? 32) || (n =? 160))%nat.

Fixpoint skip_spaces (s : string) : string :=
  match s with
  | String c s' => if is_space c then skip_spaces s' else s
  | EmptyString => s
  end.

(** [s.trim() === ''] *)
Fixpoint is_blank (s : string) : bool :=
  match s with
  | String c s' => is_space c && is_blank s'
  | EmptyString => true
  end.

(** The value of a character as a digit in a radix of 10 or 16. *)
Definition digit_of (radix : Z) (c : ascii) : option Z :=
  let n := Z.of_nat (nat_of_ascii c) in
  if ((48 <=? n) && (n <=? 57))%Z then Some (n - 48)%Z
  else if (radix =? 16)%Z && ((97 <=? n) && (n <=? 102))%Z then Some (n - 87)%Z
  else if (radix =? 16)%Z && ((65 <=? n) && (n <=? 70))%Z then Some (n - 55)%Z
  else None.

(** The number written by the longest run of digits at the start of [s],
    continuing [acc]; [None] when no digit has been read. *)
Fixpoint read_digits (radix : Z) (s : string) (acc : option Z) : option Z :=
  match s with
  | String c s' =>
      match digit_of radix c with
      | Some d =>
          read_digits radix s'
            (Some (match acc with Some a => a * radix + d | None => d end)%Z)
      | None => acc
      end
  | EmptyString => acc
  end.

(** [parseInt(s)] on a string: white space, a sign, a [0x] prefix, then
    digits. *)
Definition parseInt_string (s : string) : JsValue :=
  let s := skip_spaces s in
  let '(negative, s) :=
    match s with
    | String "-" s' => (true, s')
    | String "+" s' => (false, s')
    | _ => (false, s)
    end in
  let '(radix, s) :=
    match s with
    | String "0" (String "x" s') => (16%Z, s')
    | String "0" (String "X" s') => (16%Z, s')
    | _ => (10%Z, s)
    end in
  match read_digits radix s None with
  | Some n => JsNum (if negative then - n else n)
  | None => JsNaN
  end.

(** [parseInt(v)]: of the string the value converts to. *)
Definition parseInt (v : JsValue) : JsValue := parseInt_string (to_string v).

(** [v.k = x] in non-strict code: writing a member of [undefined] or
    [null] throws, an object takes the member, and on anything else the
    value stays as it is (the members an array holds besides its elements
    are not represented). *)
Definition set (v : JsValue) (k : string) (x : JsValue) : result JsValue :=
  match v with
  | JsUndefined =>
      Throw (TypeError ("Cannot set properties of undefined (setting '" ++ k ++ "')"))
  | JsNull =>
      Throw (TypeError ("Cannot set properties of null (setting '" ++ k ++ "')"))
  | JsObj fields => Ok (JsObj (assign k x fields))
  | _ => Ok v
  end.

End Js.
Export Js.

(* ================================================================== *)
(** ** utilities/kag-processor.js *)
(* ================================================================== *)

Module KagProcessor.

Import JsString.

(** The body of the [forEach] callback of [formatKagExamples]: the text
    appended for the example at position [index]. *)
Definition format_example (index : nat) (example : Document) : string :=
  "EXAMPLE " ++ of_nat (index + 1) ++ ":" ++ LF
  ++ "User: " ++ to_string (field example "input") ++ LF
  ++ "Assistant: " ++ to_string (field example "output") ++ LF ++ LF.

(** [examples.forEach((example, index) => { formatted += ... })], from
    position [index] on. *)
Fixpoint format_from (index : nat) (examples : list Document) (formatted : string)
  : string :=
  match examples with
  | [] => formatted
  | example :: rest =>
      format_from (S index) rest (formatted ++ format_example index example)
  end.

(** [formatKagExamples(examples)]; [None] is a [null] or [undefined]
    argument. *)
Definition formatKagExamples (examples : option (list Document)) : string :=
  match examples with
  | None => ""
  | Some [] => ""
  | Some l =>
      let formatted := LF ++ LF ++ "## RELEVANT EXAMPLES:" ++ LF ++ LF in
      let formatted := format_from 0 l formatted in
      formatted ++ "## END OF EXAMPLES" ++ LF ++ LF
  end.

(** [augmentPromptWithKagExamples(systemPrompt, examples)]. *)
Definition augmentPromptWithKagExamples
  (systemPrompt : string) (examples : option (list Document)) : string :=
  match examples with
  | None => systemPrompt
  | Some [] => systemPrompt
  | Some _ =>
      let formattedExamples := formatKagExamples examples in
      let firstParagraphEnd := indexOf systemPrompt (LF ++ LF) in
      if negb (firstParagraphEnd =? -1)%Z then
        substring systemPrompt 0 (Z.to_nat (firstParagraphEnd + 2))
        ++ formattedExamples
        ++ drop (Z.to_nat (firstParagraphEnd + 2)) systemPrompt
      else
        systemPrompt ++ LF ++ LF ++ formattedExamples
  end.

(** [s] is [before], then its first blank line, then [after]. *)
Definition first_paragraph_break (s before after : string) : Prop :=
  s = before ++ (LF ++ LF) ++ after /\
  forall j, j < String.length before -> starts_with (LF ++ LF) (drop j s) = false.

(** [s] holds no blank line. *)
Definition no_paragraph_break (s : string) : Prop :=
  forall j, starts_with (LF ++ LF) (drop j s) = false.

End KagProcessor.

(* ================================================================== *)
(** ** Effects: the outside world and the trace of a run *)
(* ================================================================== *)

Module Effects.

(** A [MongoClient] object; [client_serial] tells apart the clients the
    process has constructed. *)
Record Client : Type := mkClient { client_uri : string; client_serial : nat }.

(** What [client.db(name)] returns. *)
Record Db : Type := mkDb { db_client : Client; db_name : string }.

(** A chunk of an HTTP response body, by the string [chunk.toString()]
    yields. *)
Record Buffer : Type := mkBuffer { toString : string }.

(** What the readable stream [response.body] emits. *)
Inductive StreamEvent : Type :=
| OnData (chunk : Buffer)
| OnEnd
| OnError (err : Exn).

(** What [await fetch(url, init)] yields: a rejection, or a response with
    its [ok] flag, the outcomes of [text()] and [json()], and the events of
    its [body]. *)
Record HttpResponse : Type := mkHttpResponse {
  ok : bool;
  text : result string;
  json : result JsValue;
  body_events : list StreamEvent
}.

Inductive FetchOutcome : Type :=
| Rejected (e : Exn)
| Responded (r : HttpResponse).

Inductive level : Type := LogLevel | WarnLevel | ErrorLevel.

(** One observable action of a run. *)
Inductive event : Type :=
(* console.log / console.warn / console.error *)
| Console (l : level) (msg : string)
(* the HTTP response object [res] *)
| SetHeader (name value : string)
| Status (code : nat)
| Json (body : JsValue)
| Write (chunk : string)
| End
(* the MongoDB driver *)
| NewMongoClient (uri : string)
| Connect (c : Client)
| Close (c : Client)
| Stats (db : Db) (coll : JsValue)
| Aggregate (db : Db) (coll : JsValue) (pipeline : JsValue)
| Find (db : Db) (coll : JsValue) (filter options sort limit : JsValue)
| Command (db : Db) (cmd : JsValue)
| CountDocuments (db : Db) (coll : JsValue)
| CreateIndex (db : Db) (coll : JsValue) (keys options : JsValue)
| InsertMany (db : Db) (coll : JsValue) (docs : list JsValue)
| Indexes (db : Db) (coll : JsValue)
(* the HTTP client, the terminal and the process *)
| Fetch (url : string) (init : JsValue)
| Question (prompt : string)
| Exit (code : nat).

(** Everything a run obtains from outside the repository. *)
Record World : Type := mkWorld {
  (* process.env and process.argv[2] *)
  env : string -> option string;
  argv2 : option string;
  (* new Date(), new Date().toISOString(), Date.now() by reading, and
     the time console.timeEnd prints *)
  date_new : JsValue;
  date_iso : string;
  date_now : nat -> Z;
  timer_elapsed : string;
  (* how console.log prints an object *)
  inspect : JsValue -> string;
  (* JSON.parse and JSON.stringify *)
  json_parse : string -> result JsValue;
  json_stringify : JsValue -> string;
  (* new MongoClient(uri), client.connect() *)
  client_new : string -> result unit;
  client_connect : Client -> result unit;
  (* collection.stats(), aggregate(..).toArray(), find(..)...toArray(),
     db.command(..) *)
  coll_stats : Db -> JsValue -> result JsValue;
  coll_aggregate : Db -> JsValue -> JsValue -> result (list Document);
  coll_find : Db -> JsValue -> JsValue -> JsValue -> JsValue -> JsValue
              -> result (list Document);
  db_command : Db -> JsValue -> result JsValue;
  (* collection.countDocuments(), createIndex(..), insertMany(..),
     indexes() *)
  coll_countDocuments : Db -> JsValue -> result nat;
  coll_createIndex : Db -> JsValue -> JsValue -> JsValue -> result unit;
  coll_insertMany : Db -> JsValue -> list JsValue -> result unit;
  coll_indexes : Db -> JsValue -> result JsValue;
  (* fetch(url, init) *)
  fetch : string -> JsValue -> FetchOutcome;
  (* the lines readline yields for a file, if it exists, and what the
     user types at a question *)
  file_lines : string -> option (list string);
  user_answer : string -> string
}.

(** The module-level variables of a handler file, and the number of
    [MongoClient] objects constructed so far. *)
Record ModuleState : Type := mkModuleState {
  cachedDb : option Db;
  cachedClient : option Client;
  clients_made : nat
}.

Definition initial_state : ModuleState := mkModuleState None None 0.

(** How a block of statements completes: normally with a value, by a
    thrown exception, by a [return] statement of the enclosing function,
    or by a [break] statement of the enclosing loop. *)
Inductive completion (A : Type) : Type :=
| Normal (a : A)
| Thrown (e : Exn)
| Returned
| Broken.
Arguments Normal {A} a.
Arguments Thrown {A} e.
Arguments Returned {A}.
Arguments Broken {A}.

(** A block of statements over mutable variables [S]: from their values
    to the events emitted, their new values and the completion. *)
Definition Eff (S A : Type) : Type := S -> list event * S * completion A.

Section Statements.

Context {S : Type}.

Definition ret {A} (a : A) : Eff S A := fun st => ([], st, Normal a).

Definition bind {A B} (m : Eff S A) (k : A -> Eff S B) : Eff S B :=
  fun st =>
    match m st with
    | (tr, st', Normal a) =>
        match k a st' with
        | (tr', st'', c) => ((tr ++ tr')%list, st'', c)
        end
    | (tr, st', Thrown e) => (tr, st', Thrown e)
    | (tr, st', Returned) => (tr, st', Returned)
    | (tr, st', Broken) => (tr, st', Broken)
    end.

(** [throw e] *)
Definition throw {A} (e : Exn) : Eff S A := fun st => ([], st, Thrown e).

(** [return;] *)
Definition return_ {A} : Eff S A := fun st => ([], st, Returned).

(** [break;] *)
Definition break_ {A} : Eff S A := fun st => ([], st, Broken).

(** [try { body } catch (e) { handler e }] *)
Definition try_catch {A} (body : Eff S A) (handler : Exn -> Eff S A) : Eff S A :=
  fun st =>
    match body st with
    | (tr, st', Thrown e) =>
        match handler e st' with
        | (tr', st'', c) => ((tr ++ tr')%list, st'', c)
        end
    | r => r
    end.

(** [try { body } finally { cleanup }] *)
Definition try_finally {A} (body : Eff S A) (cleanup : Eff S unit) : Eff S A :=
  fun st =>
    match body st with
    | (tr, st', c) =>
        match cleanup st' with
        | (tr', st'', Normal _) => ((tr ++ tr')%list, st'', c)
        | (tr', st'', Thrown e) => ((tr ++ tr')%list, st'', Thrown e)
        | (tr', st'', Returned) => ((tr ++ tr')%list, st'', Returned)
        | (tr', st'', Broken) => ((tr ++ tr')%list, st'', Broken)
        end
    end.

(** A function body as a call: a [return] ends the call normally. *)
Definition call (body : Eff S unit) : Eff S unit :=
  fun st =>
    match body st with
    | (tr, st', Returned) => (tr, st', Normal tt)
    | r => r
    end.

(** [for (const x of xs) { body x }]: a [break] in the body ends the
    loop normally. *)
Fixpoint for_of {X} (xs : list X) (body : X -> Eff S unit) : Eff S unit :=
  match xs with
  | [] => ret tt
  | x :: rest =>
      fun st =>
        match body x st with
        | (tr, st', Normal _) =>
            match for_of rest body st' with
            | (tr', st'', c) => ((tr ++ tr')%list, st'', c)
            end
        | (tr, st', Broken) => (tr, st', Normal tt)
        | r => r
        end
  end.

Definition emit (e : event) : Eff S unit := fun st => ([e], st, Normal tt).

(** An expression that may throw, as a statement. *)
Definition lift {A} (r : result A) : Eff S A :=
  fun st => match r with
            | Ok a => ([], st, Normal a)
            | Throw e => ([], st, Thrown e)
            end.

(** Reading and assigning the mutable variables. *)
Definition get_state : Eff S S := fun st => ([], st, Normal st).
Definition put_state (st : S) : Eff S unit := fun _ => ([], st, Normal tt).
Definition modify (f : S -> S) : Eff S unit := fun st => ([], f st, Normal tt).

(** [if (c) { body }] *)
Definition when (c : bool) (body : Eff S unit) : Eff S unit :=
  if c then body else ret tt.

End Statements.

Declare Scope eff_scope.
Delimit Scope eff_scope with eff.
Notation "x <- m ;; k" := (bind m (fun x => k))
  (at level 61, m at next level, right associativity) : eff_scope.
Notation "m ;; k" := (bind m (fun _ => k))
  (at level 61, right associativity) : eff_scope.
Bind Scope eff_scope with Eff.

(** The values [f] gives for the members of a list, in their order. *)
Fixpoint collect {A B} (f : A -> option B) (l : list A) : list B :=
  match l with
  | [] => []
  | x :: rest =>
      match f x with
      | Some y => y :: collect f rest
      | None => collect f rest
      end
  end.

(** The trace, final variables and completion of a run. *)
Definition trace_of {S A} (r : list event * S * completion A) : list event :=
  fst (fst r).
Definition state_of {S A} (r : list event * S * completion A) : S :=
  snd (fst r).
Definition completion_of {S A} (r : list event * S * completion A)
  : completion A := snd r.

End Effects.
Export Effects.


(* ================================================================== *)
(** ** Statements shared by the handler files *)
(* ================================================================== *)

Module Node.

Import JsString.

Local Open Scope eff_scope.

(** A block of statements of a handler file, over its module-level
    variables. *)
Definition Handler (A : Type) : Type := Eff ModuleState A.

(** An HTTP request as a handler reads it: [req.method] and [req.body]. *)
Record Request : Type := mkRequest { method : string; body : JsValue }.

(** How the console prints an error object (the first line of its
    [stack]). *)
Definition show_exn (e : Exn) : string :=
  exn_name e ++ ": " ++ exn_message e.

Definition console_log {S} (msg : string) : Eff S unit := emit (Console LogLevel msg).
Definition console_warn {S} (msg : string) : Eff S unit := emit (Console WarnLevel msg).
Definition console_error {S} (msg : string) : Eff S unit := emit (Console ErrorLevel msg).

Definition res_setHeader {S} (name value : string) : Eff S unit :=
  emit (SetHeader name value).
Definition res_status {S} (code : nat) : Eff S unit := emit (Status code).
Definition res_json {S} (body : JsValue) : Eff S unit := emit (Json body).
Definition res_write {S} (chunk : string) : Eff S unit := emit (Write chunk).
Definition res_end {S} : Eff S unit := emit End.

(** [process.env.NAME] as a value. *)
Definition env_value (w : World) (name : string) : JsValue :=
  match env w name with
  | Some s => JsStr s
  | None => JsUndefined
  end.

(** [typeof req.body === 'string' ? JSON.parse(req.body) : req.body] *)
Definition parse_body (w : World) (req : Request) : result JsValue :=
  match body req with
  | JsStr s => json_parse w s
  | v => Ok v
  end.

(** [new MongoClient(uri, ...)] *)
Definition new_MongoClient (w : World) (uri : string) : Handler Client :=
  st <- get_state ;;
  emit (NewMongoClient uri) ;;
  lift (client_new w uri) ;;
  let client := mkClient uri (clients_made st) in
  put_state (mkModuleState (cachedDb st) (cachedClient st) (S (clients_made st))) ;;
  ret client.

(** [await client.connect()] *)
Definition connect {S} (w : World) (client : Client) : Eff S unit :=
  emit (Connect client) ;;
  lift (client_connect w client).

(** [await client.close()] *)
Definition close {S} (client : Client) : Eff S unit := emit (Close client).

(** [await fetch(url, init)] *)
Definition do_fetch {S} (w : World) (url : string) (init : JsValue)
  : Eff S HttpResponse :=
  emit (Fetch url init) ;;
  match fetch w url init with
  | Rejected e => throw e
  | Responded r => ret r
  end.

(** [cachedDb = db], [cachedClient = client] *)
Definition set_cachedDb (db : Db) : Handler unit :=
  st <- get_state ;;
  put_state (mkModuleState (Some db) (cachedClient st) (clients_made st)).

Definition set_cachedClient (client : Client) : Handler unit :=
  st <- get_state ;;
  put_state (mkModuleState (cachedDb st) (Some client) (clients_made st)).

(** [s.substring(0, n) + (s.length > n ? '...' : '')] on a value: only a
    string has a [substring] method. *)
Definition ellipsis (v : JsValue) (n : nat) : result string :=
  match v with
  | JsStr s => Ok (substring s 0 n ++ (if (n <? String.length s)%nat then "..." else ""))
  | JsUndefined =>
      Throw (TypeError "Cannot read properties of undefined (reading 'substring')")
  | JsNull =>
      Throw (TypeError "Cannot read properties of null (reading 'substring')")
  | _ => Throw (TypeError "substring is not a function")
  end.

(** [Array.prototype.map] with a callback that may throw. *)
Fixpoint map_result {A B} (f : A -> result B) (l : list A) : result (list B) :=
  match l with
  | [] => Ok []
  | x :: r =>
      match f x with
      | Throw e => Throw e
      | Ok y =>
          match map_result f r with
          | Throw e => Throw e
          | Ok ys => Ok (y :: ys)
          end
      end
  end.

(** [Array.prototype.join] on strings. *)
Fixpoint join (sep : string) (l : list string) : string :=
  match l with
  | [] => ""
  | [x] => x
  | x :: r => x ++ sep ++ join sep r
  end.

End Node.
Export Node.

(* ================================================================== *)
(** ** api/rag.js *)
(* ================================================================== *)

Module Rag.

Import JsString.

Local Open Scope eff_scope.

(** [connectToDatabase(uri)], rag.js lines 9-42. *)
Definition connectToDatabase (w : World) (uri : string) : Handler Db :=
  st <- get_state ;;
  match cachedDb st with
  | Some db => ret db
  | None =>
      client <- new_MongoClient w uri ;;
      try_catch
        (console_log "Attempting to connect to MongoDB..." ;;
         connect w client ;;
         console_log "Successfully connected to MongoDB" ;;
         let db := mkDb client
                     (to_string (or_else (env_value w "MONGODB_DB_NAME")
                                         (JsStr "ragDatabase"))) in
         set_cachedClient client ;;
         set_cachedDb db ;;
         ret db)
        (fun error =>
           console_error ("MongoDB connection error: " ++ exn_message error) ;;
           throw (Error ("Failed to connect to MongoDB: " ++ exn_message error)))
  end.

(** [errorResponse(res, status, message, details = null)], lines 45-57. *)
Definition errorResponse (status : nat) (message : string) (details : JsValue)
  : Handler unit :=
  let response := [("error", JsStr message)] in
  let response := if truthy details then assign "details" details response
                  else response in
  res_setHeader "Content-Type" "application/json" ;;
  res_setHeader "Access-Control-Allow-Origin" "*" ;;
  res_status status ;;
  res_json (JsObj response).

(** The [answer] of [generateFallbackResponse(query)], lines 60-66. *)
Definition fallback_answer (query : JsValue) : string :=
  "I'm unable to search the knowledge base at the moment due to a database connection issue. Here's a general response to your query: "
  ++ DQ ++ to_string query ++ DQ ++ "."
  ++ LF ++ LF
  ++ "Please try again later or contact support if this issue persists.".

(** [generateFallbackResponse(query)] *)
Definition generateFallbackResponse (query : JsValue) : list (string * JsValue) :=
  [("answer", JsStr (fallback_answer query));
   ("sources", JsArr []);
   ("fallback", JsBool true)].


Definition embeddings_url : string := "https://api.fireworks.ai/inference/v1/embeddings".
Definition chat_url : string := "https://api.fireworks.ai/inference/v1/chat/completions".

(** The [init] argument of both [fetch] calls: a POST of [payload] as
    JSON, authorized by the API key. *)
Definition post_init (w : World) (fireworksApiKey : JsValue) (payload : JsValue)
  : JsValue :=
  JsObj [("method", JsStr "POST");
         ("headers",
           JsObj [("Authorization", JsStr ("Bearer " ++ to_string fireworksApiKey));
                  ("Content-Type", JsStr "application/json")]);
         ("body", JsStr (json_stringify w payload))].

(** The aggregation pipeline of Step 3, lines 188-208. *)
Definition search_pipeline (queryEmbedding : JsValue) : JsValue :=
  JsArr [
    JsObj [("$search",
             JsObj [("index", JsStr "vector_index");
                    ("knnBeta",
                      JsObj [("vector", queryEmbedding);
                             ("path", JsStr "embedding");
                             ("k", JsNum 5)])])];
    JsObj [("$project",
             JsObj [("_id", JsNum 0);
                    ("instruction", JsNum 1);
                    ("context", JsNum 1);
                    ("response", JsNum 1);
                    ("score", JsObj [("$meta", JsStr "searchScore")])])]
  ].

(** Step 1, lines 124-141: the database handle, or [None] when the
    [catch] block has set [usedFallback]. *)
Definition step1_connect (w : World) (mongoDbUri : JsValue) (collection : JsValue)
  : Handler (option Db) :=
  try_catch
    (console_log ("Connecting to MongoDB, collection: " ++ to_string collection) ;;
     db <- connectToDatabase w (to_string mongoDbUri) ;;
     emit (Stats db collection) ;;
     collectionInfo <- lift (coll_stats w db collection) ;;
     count <- lift (get collectionInfo "count") ;;
     size <- lift (get collectionInfo "size") ;;
     console_log ("Collection stats: count=" ++ to_string count
                  ++ ", size=" ++ to_string size) ;;
     when (match count with JsNum 0 => true | _ => false end)
          (console_warn ("Collection " ++ to_string collection
                         ++ " exists but is empty")) ;;
     ret (Some db))
    (fun dbError =>
       console_error ("MongoDB connection error: " ++ exn_message dbError) ;;
       ret None).

(** The [init] argument of the embedding request, lines 147-157. *)
Definition embedding_init (w : World) (fireworksApiKey model query : JsValue)
  : JsValue :=
  post_init w fireworksApiKey (JsObj [("model", model); ("input", query)]).

(** The [try] block of Step 2, lines 146-166. *)
Definition embedding_request (w : World) (fireworksApiKey model query : JsValue)
  : Handler JsValue :=
  console_log ("Creating embedding for query using model: " ++ to_string model) ;;
  embeddingResponse <-
    do_fetch w embeddings_url (embedding_init w fireworksApiKey model query) ;;
  when (negb (ok embeddingResponse))
       (error <- lift (text embeddingResponse) ;;
        throw (Error ("Embedding API error: " ++ error))) ;;
  embeddingData <- lift (json embeddingResponse) ;;
  data <- lift (get embeddingData "data") ;;
  data0 <- lift (get_index data 0) ;;
  queryEmbedding <- lift (get data0 "embedding") ;;
  console_log "Successfully created embedding for query" ;;
  ret queryEmbedding.

(** Step 2, lines 143-182: the embedding; its [catch] block answers with
    the canned response and returns from the handler. *)
Definition step2_embedding (w : World) (fireworksApiKey model query : JsValue)
  : Handler JsValue :=
  try_catch
    (embedding_request w fireworksApiKey model query)
    (fun embeddingError =>
       console_error ("Failed to create embedding: " ++ exn_message embeddingError) ;;
       let fallbackResponse := generateFallbackResponse query in
       res_setHeader "Content-Type" "application/json" ;;
       res_setHeader "Access-Control-Allow-Origin" "*" ;;
       res_setHeader "Cache-Control" "no-cache, no-store, must-revalidate" ;;
       res_status 200 ;;
       res_json (JsObj [("answer", lookup "answer" fallbackResponse);
                        ("sources", lookup "sources" fallbackResponse);
                        ("fallback", JsBool true);
                        ("error", JsStr ("Embedding failed: "
                                         ++ exn_message embeddingError))]) ;;
       return_).

(** Step 3, lines 184-217: [queryResult] and [usedFallback] after the
    vector search; [db] is [None] when [usedFallback] was already set. *)
Definition step3_search (w : World) (db : option Db) (collection queryEmbedding : JsValue)
  : Handler (list Document * bool) :=
  match db with
  | Some db =>
      try_catch
        (console_log "Performing vector search in MongoDB" ;;
         emit (Aggregate db collection (search_pipeline queryEmbedding)) ;;
         queryResult <-
           lift (coll_aggregate w db collection (search_pipeline queryEmbedding)) ;;
         console_log ("Found " ++ of_nat (List.length queryResult)
                      ++ " relevant documents") ;;
         ret (queryResult, false))
        (fun searchError =>
           console_error ("Vector search error: " ++ exn_message searchError) ;;
           ret ([], true))
  | None => ret ([], true)
  end.

(** The callback of the [map] of Step 4, line 223. *)
Definition context_entry (doc : Document) : string :=
  "Question: " ++ to_string (field doc "instruction") ++ LF
  ++ "Context: " ++ to_string (field doc "context") ++ LF
  ++ "Answer: " ++ to_string (field doc "response").

(** Step 4, lines 219-228. *)
Definition step4_context (queryResult : list Document) : Handler string :=
  match queryResult with
  | _ :: _ =>
      let context := join (LF ++ LF) (map context_entry queryResult) in
      console_log "Successfully prepared context from retrieved documents" ;;
      ret context
  | [] =>
      console_log "No relevant documents found, using empty context" ;;
      ret ""
  end.

(** The [messages] of Step 5, lines 231-240. *)
Definition messages (usedFallback : bool) (context : string) (query : JsValue)
  : JsValue :=
  JsArr [
    JsObj [("role", JsStr "system");
           ("content",
             JsStr ("You are a helpful assistant. "
                    ++ (if usedFallback
                        then "The knowledge base search is currently unavailable, so please answer based on your general knowledge."
                        else "Use the following context to answer the user's question, but don't mention that you're using a context. If the context doesn't contain relevant information, just answer based on your knowledge.")
                    ++ LF ++ LF
                    ++ (if usedFallback then "" else "Context:" ++ LF ++ context)))];
    JsObj [("role", JsStr "user"); ("content", query)]
  ].

(** The [init] argument of the chat request, lines 244-256. *)
Definition chat_init (w : World) (fireworksApiKey : JsValue) (messages : JsValue)
  : JsValue :=
  post_init w fireworksApiKey
    (JsObj [("model", JsStr "accounts/fireworks/models/llama-v3p3-70b-instruct");
            ("messages", messages);
            ("temperature", JsReal "0.7");
            ("max_tokens", JsNum 1024)]).

(** The callback of the [map] of Step 6, lines 273-278. *)
Definition source_entry (doc : Document) : result JsValue :=
  match ellipsis (field doc "response") 200 with
  | Throw e => Throw e
  | Ok response =>
      Ok (JsObj [("instruction", field doc "instruction");
                 ("response", JsStr response);
                 ("context", field doc "context");
                 ("score", field doc "score")])
  end.

(** Steps 5 and 6, lines 242-285. *)
Definition step5_llm (w : World) (fireworksApiKey query : JsValue)
  (queryResult : list Document) (usedFallback : bool) (context : string)
  : Handler unit :=
  try_catch
    (console_log "Sending query to LLM API" ;;
     llmResponse <-
       do_fetch w chat_url
         (chat_init w fireworksApiKey (messages usedFallback context query)) ;;
     when (negb (ok llmResponse))
          (error <- lift (text llmResponse) ;;
           throw (Error ("LLM API error: " ++ error))) ;;
     llmData <- lift (json llmResponse) ;;
     choices <- lift (get llmData "choices") ;;
     choice <- lift (get_index choices 0) ;;
     message <- lift (get choice "message") ;;
     answer <- lift (get message "content") ;;
     console_log "Successfully received response from LLM API" ;;
     res_setHeader "Content-Type" "application/json" ;;
     res_setHeader "Access-Control-Allow-Origin" "*" ;;
     res_setHeader "Cache-Control" "no-cache, no-store, must-revalidate" ;;
     res_status 200 ;;
     sources <- lift (map_result source_entry queryResult) ;;
     res_json (JsObj [("answer", answer);
                      ("sources", JsArr sources);
                      ("fallback", JsBool usedFallback)]))
    (fun llmError =>
       console_error ("LLM API error: " ++ exn_message llmError) ;;
       errorResponse 500 ("LLM API error: " ++ exn_message llmError) JsNull ;;
       return_).

(** The [try] block of the handler, lines 88-285. *)
Definition handler_body (w : World) (req : Request) : Handler unit :=
  let fireworksApiKey := env_value w "FIREWORKS_API_KEY" in
  let mongoDbUri := env_value w "MONGODB_URI" in
  when (negb (truthy fireworksApiKey) || negb (truthy mongoDbUri))
       (console_error "Missing required environment variables" ;;
        errorResponse 500 "Configuration error: Missing API keys or MongoDB URI" JsNull ;;
        return_) ;;
  requestBody <-
    try_catch
      (lift (parse_body w req))
      (fun parseError =>
         console_error ("Failed to parse request body: " ++ show_exn parseError) ;;
         errorResponse 400 "Invalid JSON in request body"
                       (JsStr (exn_message parseError)) ;;
         return_) ;;
  query <- lift (get requestBody "query") ;;
  collectionName <- lift (get requestBody "collectionName") ;;
  modelName <- lift (get requestBody "modelName") ;;
  when (negb (truthy query))
       (errorResponse 400 "Missing query parameter" JsNull ;;
        return_) ;;
  let collection :=
    or_else (or_else collectionName (env_value w "MONGODB_COLLECTION"))
            (JsStr "rag_collection") in
  let model := or_else modelName (JsStr "nomic-ai/nomic-embed-text-v1.5") in
  db <- step1_connect w mongoDbUri collection ;;
  queryEmbedding <- step2_embedding w fireworksApiKey model query ;;
  found <- step3_search w db collection queryEmbedding ;;
  let queryResult := fst found in
  let usedFallback := snd found in
  context <- step4_context queryResult ;;
  step5_llm w fireworksApiKey query queryResult usedFallback context.

(** [module.exports], lines 68-291. *)
Definition handler (w : World) (req : Request) : Handler unit :=
  call
    (console_log ("RAG API endpoint called: " ++ date_iso w) ;;
     when (method req =? "OPTIONS")
          (res_setHeader "Access-Control-Allow-Origin" "*" ;;
           res_setHeader "Access-Control-Allow-Methods" "GET, POST, OPTIONS" ;;
           res_setHeader "Access-Control-Allow-Headers" "Content-Type, Authorization" ;;
           res_setHeader "Access-Control-Max-Age" "86400" ;;
           res_status 204 ;;
           res_end ;;
           return_) ;;
     when (negb (method req =? "POST"))
          (errorResponse 405 "Method Not Allowed" JsNull ;;
           return_) ;;
     try_catch
       (handler_body w req)
       (fun error =>
          console_error ("Function error: " ++ exn_message error
                         ++ " " ++ show_exn error) ;;
          errorResponse 500 "Internal Server Error" (JsStr (exn_message error)) ;;
          return_)).

End Rag.

(* ================================================================== *)
(** ** api/streaming.js *)
(* ================================================================== *)

Module Streaming.

Import JsString.

Local Open Scope eff_scope.

(** [JSON.stringify(v)] as a value: [undefined] has no JSON text. *)
Definition stringify (w : World) (v : JsValue) : JsValue :=
  match v with
  | JsUndefined => JsUndefined
  | _ => JsStr (json_stringify w v)
  end.

(** [`data: ${payload}\n\n`], the text-event-stream envelope. *)
Definition sse_frame (payload : string) : string :=
  "data: " ++ payload ++ LF ++ LF.

(** [`data: ${JSON.stringify({ error: true, message })}\n\n`] *)
Definition error_frame (w : World) (message : string) : string :=
  sse_frame (json_stringify w (JsObj [("error", JsBool true);
                                      ("message", JsStr message)])).

(** The [init] argument of the [fetch] call, lines 37-44. *)
Definition completion_init (w : World) (apiKey requestBody : JsValue) : JsValue :=
  JsObj [("method", JsStr "POST");
         ("headers",
           JsObj [("Content-Type", JsStr "application/json");
                  ("Authorization", JsStr ("Bearer " ++ to_string apiKey))]);
         ("body", stringify w requestBody)].

(** The listeners of lines 56-69, by the event they are registered for. *)
Definition listener (w : World) (ev : StreamEvent) : Handler unit :=
  match ev with
  | OnData chunk =>
      res_write (sse_frame (toString chunk))
  | OnEnd =>
      res_write (sse_frame "[DONE]") ;;
      res_end
  | OnError err =>
      console_error ("Stream error: " ++ show_exn err) ;;
      res_write (error_frame w (exn_message err)) ;;
      res_end
  end.

(** The handler up to the registration of the listeners, lines 8-75: the
    events of the stream the listeners are registered on. *)
Definition handler_sync (w : World) (req : Request) : Handler (list StreamEvent) :=
  res_setHeader "Access-Control-Allow-Origin" "*" ;;
  res_setHeader "Access-Control-Allow-Methods" "POST, OPTIONS" ;;
  res_setHeader "Access-Control-Allow-Headers" "Content-Type, Authorization" ;;
  when (method req =? "OPTIONS")
       (res_status 204 ;; res_end ;; return_) ;;
  when (negb (method req =? "POST"))
       (res_status 405 ;;
        res_json (JsObj [("error", JsStr "Method not allowed")]) ;;
        return_) ;;
  try_catch
    (requestBody <- lift (parse_body w req) ;;
     let apiKey := env_value w "FIREWORKS_API_KEY" in
     when (negb (truthy apiKey))
          (res_status 500 ;;
           res_json (JsObj [("error", JsStr "API key not configured on server")]) ;;
           return_) ;;
     res_setHeader "Content-Type" "text/event-stream" ;;
     res_setHeader "Cache-Control" "no-cache" ;;
     res_setHeader "Connection" "keep-alive" ;;
     response <- do_fetch w Rag.chat_url (completion_init w apiKey requestBody) ;;
     when (negb (ok response))
          (errorText <- lift (text response) ;;
           res_write (error_frame w errorText) ;;
           res_end ;;
           return_) ;;
     ret (body_events response))
    (fun error =>
       console_error ("Error: " ++ show_exn error) ;;
       res_write (error_frame w (exn_message error)) ;;
       res_end ;;
       ret []).

(** [module.exports]: the handler, then the listeners as the stream emits
    its events. *)
Definition handler (w : World) (req : Request) : Handler unit :=
  call
    (stream <- handler_sync w req ;;
     for_of stream (listener w)).

End Streaming.

(* ================================================================== *)
(** ** api/mongodb-status.js *)
(* ================================================================== *)

Module Status.

Import JsString.

Local Open Scope eff_scope.

(** [connectToDatabase(uri)], mongodb-status.js lines 7-24. *)
Definition connectToDatabase (w : World) (uri : string) : Handler Db :=
  st <- get_state ;;
  match cachedDb st with
  | Some db => ret db
  | None =>
      client <- new_MongoClient w uri ;;
      connect w client ;;
      let db := mkDb client
                  (to_string (or_else (env_value w "MONGODB_DB_NAME")
                                      (JsStr "ragDatabase"))) in
      set_cachedDb db ;;
      ret db
  end.

(** [module.exports], lines 26-82. *)
Definition handler (w : World) (req : Request) : Handler unit :=
  call
    (res_setHeader "Access-Control-Allow-Origin" "*" ;;
     res_setHeader "Access-Control-Allow-Methods" "GET, OPTIONS" ;;
     res_setHeader "Access-Control-Allow-Headers" "Content-Type" ;;
     when (method req =? "OPTIONS")
          (res_status 204 ;; res_end ;; return_) ;;
     when (negb (method req =? "GET"))
          (res_status 405 ;;
           res_json (JsObj [("error", JsStr "Method not allowed")]) ;;
           return_) ;;
     try_catch
       (let mongoDbUri := env_value w "MONGODB_URI" in
        when (negb (truthy mongoDbUri))
             (res_status 500 ;;
              res_json (JsObj [("status", JsStr "error");
                               ("message",
                                 JsStr "MongoDB URI not configured in environment variables");
                               ("time", JsStr (date_iso w))]) ;;
              return_) ;;
        let startTime := date_now w 0 in
        db <- connectToDatabase w (to_string mongoDbUri) ;;
        emit (Command db (JsObj [("ping", JsNum 1)])) ;;
        result <- lift (db_command w db (JsObj [("ping", JsNum 1)])) ;;
        let endTime := date_now w 1 in
        let connectionTime := (endTime - startTime)%Z in
        res_status 200 ;;
        res_json (JsObj [("status", JsStr "ok");
                         ("message", JsStr "Successfully connected to MongoDB");
                         ("connectionTimeMs", JsNum connectionTime);
                         ("time", JsStr (date_iso w));
                         ("collections",
                           or_else (env_value w "MONGODB_COLLECTION")
                                   (JsStr "rag_collection"))]) ;;
        return_)
       (fun error =>
          console_error ("MongoDB connection error: " ++ show_exn error) ;;
          res_status 500 ;;
          res_json (JsObj [("status", JsStr "error");
                           ("message",
                             JsStr ("Failed to connect to MongoDB: "
                                    ++ exn_message error));
                           ("time", JsStr (date_iso w))]) ;;
          return_)).

End Status.

(* ================================================================== *)
(** ** api/kag-search.js *)
(* ================================================================== *)

Module KagSearch.

Import JsString.

Local Open Scope eff_scope.

(** The arguments of [find], [sort] and [limit], lines 83-89. *)
Definition text_filter (query : JsValue) : JsValue :=
  JsObj [("$text", JsObj [("$search", query)])].

Definition text_score : JsValue :=
  JsObj [("score", JsObj [("$meta", JsStr "textScore")])].

(** [collection.find(filter, options).sort(sort).limit(limit).toArray()] *)
Definition find_examples {S} (w : World) (db : Db) (coll query limit : JsValue)
  : Eff S (list Document) :=
  emit (Find db coll (text_filter query) text_score text_score limit) ;;
  lift (coll_find w db coll (text_filter query) text_score text_score limit).

(** The headers set before every JSON answer. *)
Definition json_headers {S} : Eff S unit :=
  res_setHeader "Content-Type" "application/json" ;;
  res_setHeader "Access-Control-Allow-Origin" "*".

(** The answers to an OPTIONS request and to a request that is not a POST,
    lines 9-24. *)
Definition method_guard {S} (req : Request) : Eff S unit :=
  when (method req =? "OPTIONS")
       (res_setHeader "Access-Control-Allow-Origin" "*" ;;
        res_setHeader "Access-Control-Allow-Headers" "Content-Type, Authorization" ;;
        res_setHeader "Access-Control-Allow-Methods" "POST, OPTIONS" ;;
        res_status 204 ;;
        res_end ;;
        return_) ;;
  when (negb (method req =? "POST"))
       (json_headers ;;
        res_setHeader "Allow" "POST" ;;
        res_status 405 ;;
        res_json (JsObj [("error", JsStr "Method Not Allowed")]) ;;
        return_).

(** The checks of the configuration and of the request body, lines 30-63:
    the parsed body. *)
Definition validate {S} (w : World) (uri : JsValue) (req : Request) : Eff S JsValue :=
  when (negb (truthy uri))
       (console_error "ERROR: MongoDB URI is missing in environment variables" ;;
        json_headers ;;
        res_status 500 ;;
        res_json (JsObj [("error", JsStr "Configuration error");
                         ("message", JsStr "Database connection string not configured")]) ;;
        return_) ;;
  requestBody <-
    try_catch
      (lift (parse_body w req))
      (fun parseError =>
         console_error ("Failed to parse request body: " ++ show_exn parseError) ;;
         json_headers ;;
         res_status 400 ;;
         res_json (JsObj [("error", JsStr "Invalid JSON in request body");
                          ("message", JsStr (exn_message parseError))]) ;;
         return_) ;;
  query <- lift (get requestBody "query") ;;
  when (negb (truthy query))
       (json_headers ;;
        res_status 400 ;;
        res_json (JsObj [("error", JsStr "Missing required parameter: query")]) ;;
        return_) ;;
  ret requestBody.

(** The [catch] block of the handler, lines 102-110. *)
Definition internal_error {S} (error : Exn) : Eff S unit :=
  console_error ("Function error: " ++ exn_message error ++ " " ++ show_exn error) ;;
  json_headers ;;
  res_status 500 ;;
  res_json (JsObj [("error", JsStr "Internal Server Error");
                   ("message", JsStr (exn_message error))]).

(** [module.exports], lines 7-111. *)
Definition handler (w : World) (req : Request) : Handler unit :=
  let uri := env_value w "MONGODB_URI" in
  call
    (method_guard req ;;
     try_catch
       (console_log ("KAG Search API called: " ++ date_iso w) ;;
        requestBody <- validate w uri req ;;
        query <- lift (get requestBody "query") ;;
        maxResults <- lift (get requestBody "maxResults") ;;
        let maxResults := or_else maxResults (JsNum 3) in
        shown <- lift (ellipsis query 100) ;;
        console_log ("KAG search query: " ++ DQ ++ shown ++ DQ) ;;
        client <- new_MongoClient w (to_string uri) ;;
        connect w client ;;
        let db := mkDb client "kag-database" in
        examples <- find_examples w db (JsStr "examples") query maxResults ;;
        close client ;;
        console_log ("Found " ++ of_nat (List.length examples) ++ " matching examples") ;;
        json_headers ;;
        res_setHeader "Cache-Control" "no-cache, no-store, must-revalidate" ;;
        res_status 200 ;;
        res_json (JsArr (map JsObj examples)))
       internal_error).

End KagSearch.

(* ================================================================== *)
(** ** api/kag.js *)
(* ================================================================== *)

Module Kag.

Import JsString KagProcessor.

Local Open Scope eff_scope.

(** The module-level constants, lines 8-10. *)
Definition uri (w : World) : JsValue := env_value w "MONGODB_URI".
Definition dbName (w : World) : JsValue :=
  or_else (env_value w "MONGODB_DB_NAME") (JsStr "kag-database").
Definition collectionName (w : World) : JsValue :=
  or_else (env_value w "MONGODB_COLLECTION") (JsStr "examples").

(** [connectToDatabase(uri)], lines 15-32. *)
Definition connectToDatabase (w : World) (uri : string) : Handler Db :=
  st <- get_state ;;
  match cachedDb st with
  | Some db => ret db
  | None =>
      client <- new_MongoClient w uri ;;
      connect w client ;;
      let db := mkDb client (to_string (dbName w)) in
      set_cachedDb db ;;
      ret db
  end.

(** [augmentPromptWithKagExamples(systemPrompt, examples)] as called at
    line 124, where the prompt is whatever truthy value the body holds:
    only a string has both [indexOf] and [substring]; an array has
    [indexOf] alone. *)
Definition augment_value (systemPrompt : JsValue) (examples : list Document)
  : result JsValue :=
  match examples with
  | [] => Ok systemPrompt
  | _ :: _ =>
      match systemPrompt with
      | JsStr s => Ok (JsStr (augmentPromptWithKagExamples s (Some examples)))
      | JsArr items =>
          if existsb (fun x => match x with
                               | JsStr s => s =? LF ++ LF
                               | _ => false
                               end) items
          then Throw (TypeError "systemPrompt.substring is not a function")
          else Ok (JsStr (to_string systemPrompt ++ LF ++ LF
                          ++ formatKagExamples (Some examples)))
      | _ => Throw (TypeError "systemPrompt.indexOf is not a function")
      end
  end.

(** [module.exports], lines 34-152. *)
Definition handler (w : World) (req : Request) : Handler unit :=
  call
    (KagSearch.method_guard req ;;
     try_catch
       (console_log ("KAG API called: " ++ date_iso w) ;;
        requestBody <- KagSearch.validate w (uri w) req ;;
        query <- lift (get requestBody "query") ;;
        collName <- lift (get requestBody "collectionName") ;;
        let collName := or_else collName (collectionName w) in
        maxResults <- lift (get requestBody "maxResults") ;;
        let maxResults := parseInt (or_else maxResults (JsNum 3)) in
        systemPrompt <- lift (get requestBody "systemPrompt") ;;
        let systemPrompt := or_else systemPrompt (JsStr "") in
        shown <- lift (ellipsis query 100) ;;
        console_log ("KAG query: " ++ DQ ++ shown ++ DQ
                     ++ " Collection: " ++ to_string collName
                     ++ ", Max results: " ++ to_string maxResults) ;;
        db <- connectToDatabase w (to_string (uri w)) ;;
        examples <- KagSearch.find_examples w db collName query maxResults ;;
        console_log ("Found " ++ of_nat (List.length examples) ++ " matching examples") ;;
        responseData <-
          (if truthy systemPrompt then
             augmentedPrompt <- lift (augment_value systemPrompt examples) ;;
             ret (JsObj [("augmentedPrompt", augmentedPrompt);
                         ("examples", JsArr (map JsObj examples));
                         ("count", JsNum (Z.of_nat (List.length examples)))])
           else
             ret (JsObj [("examples", JsArr (map JsObj examples));
                         ("count", JsNum (Z.of_nat (List.length examples)));
                         ("formattedExamples",
                           JsStr (formatKagExamples (Some examples)))])) ;;
        KagSearch.json_headers ;;
        res_setHeader "Cache-Control" "no-cache, no-store, must-revalidate" ;;
        res_status 200 ;;
        res_json responseData)
       KagSearch.internal_error).

End Kag.

(* ================================================================== *)
(** ** data-import/import-to-mongodb.js *)
(* ================================================================== *)

Module ImportScript.

Import JsString.

Local Open Scope eff_scope.

(** The local variables of [importData], lines 69-72. *)
Record Locals : Type := mkLocals {
  lineCount : nat;
  importedCount : nat;
  errorCount : nat;
  batch : list JsValue
}.

Definition DB_NAME : string := "kag-database".
Definition COLLECTION_NAME : JsValue := JsStr "examples".
Definition BATCH_SIZE : nat := 1000.

Definition MONGODB_URI (w : World) : JsValue :=
  or_else (env_value w "MONGODB_URI") (JsStr "your_connection_string_here").

(** The position of the first occurrence of a character. *)
Fixpoint find_char (c : ascii) (s : string) : option nat :=
  match s with
  | EmptyString => None
  | String a s' =>
      if Ascii.eqb a c then Some 0
      else option_map S (find_char c s')
  end.

(** The length of the match of [/\/\/([^:]+):([^@]+)@/] at the start of
    a string. *)
Definition match_credentials (s : string) : option nat :=
  if starts_with "//" s then
    match find_char ":" (drop 2 s) with
    | Some (S j) =>
        match find_char "@" (drop (2 + S j + 1) s) with
        | Some (S k) => Some (2 + S j + 1 + S k + 1)
        | _ => None
        end
    | _ => None
    end
  else None.

(** [uri.replace(/\/\/([^:]+):([^@]+)@/, '//***:***@')] *)
Fixpoint hide_credentials (s : string) : string :=
  match match_credentials s with
  | Some n => "//***:***@" ++ drop n s
  | None =>
      match s with
      | EmptyString => EmptyString
      | String c s' => String c (hide_credentials s')
      end
  end.

(** [lineCount++], [errorCount++], [batch.push(doc)],
    [importedCount += batch.length], [batch = []] *)
Definition incr_lineCount (st : Locals) : Locals :=
  mkLocals (S (lineCount st)) (importedCount st) (errorCount st) (batch st).
Definition incr_errorCount (st : Locals) : Locals :=
  mkLocals (lineCount st) (importedCount st) (S (errorCount st)) (batch st).
Definition push (doc : JsValue) (st : Locals) : Locals :=
  mkLocals (lineCount st) (importedCount st) (errorCount st) (batch st ++ [doc])%list.
Definition add_imported (st : Locals) : Locals :=
  mkLocals (lineCount st) (importedCount st + List.length (batch st))
           (errorCount st) (batch st).
Definition clear_batch (st : Locals) : Locals :=
  mkLocals (lineCount st) (importedCount st) (errorCount st) [].

(** [await collection.insertMany(batch)] *)
Definition insertMany {S} (w : World) (db : Db) (docs : list JsValue) : Eff S unit :=
  emit (InsertMany db COLLECTION_NAME docs) ;;
  lift (coll_insertMany w db COLLECTION_NAME docs).

(** The body of the loop over the lines, lines 78-111. *)
Definition loop_body (w : World) (db : Db) (line : string) : Eff Locals unit :=
  modify incr_lineCount ;;
  if is_blank line then ret tt
  else
    try_catch
      (doc <- lift (json_parse w line) ;;
       doc <- lift (set doc "importedAt" (date_new w)) ;;
       modify (push doc) ;;
       st <- get_state ;;
       when (BATCH_SIZE <=? List.length (batch st))%nat
            (insertMany w db (batch st) ;;
             modify add_imported ;;
             modify clear_batch ;;
             st <- get_state ;;
             when (importedCount st mod 5000 =? 0)%nat
                  (console_log ("Imported " ++ of_nat (importedCount st)
                                ++ " documents so far..."))))
      (fun err =>
         modify incr_errorCount ;;
         st <- get_state ;;
         console_error ("Error on line " ++ of_nat (lineCount st) ++ ": "
                        ++ exn_message err) ;;
         when (100 <? errorCount st)%nat
              (console_error "Too many errors, aborting import" ;;
               break_)).

(** The loop and the statements after it, lines 78-123. *)
Definition import_lines (w : World) (db : Db) (lines : list string) : Eff Locals unit :=
  for_of lines (loop_body w db) ;;
  st <- get_state ;;
  when (0 <? List.length (batch st))%nat
       (insertMany w db (batch st) ;;
        modify add_imported) ;;
  st <- get_state ;;
  console_log ("Import time: " ++ timer_elapsed w) ;;
  console_log "Import completed:" ;;
  console_log ("- Total lines processed: " ++ of_nat (lineCount st)) ;;
  console_log ("- Documents imported: " ++ of_nat (importedCount st)) ;;
  console_log ("- Errors: " ++ of_nat (errorCount st)).

(** The index created at lines 51-60. *)
Definition index_keys : JsValue :=
  JsObj [("input", JsStr "text"); ("output", JsStr "text")].
Definition index_options : JsValue :=
  JsObj [("name", JsStr "search_index");
         ("weights", JsObj [("input", JsNum 10); ("output", JsNum 5)])].

(** [importData()], lines 25-136, for the file at [FILE_PATH]. *)
Definition importData (w : World) (FILE_PATH : string) : Eff Locals unit :=
  call
    (console_log ("Importing data from " ++ FILE_PATH ++ " to MongoDB...") ;;
     console_log ("MongoDB URI: " ++ hide_credentials (to_string (MONGODB_URI w))) ;;
     emit (NewMongoClient (to_string (MONGODB_URI w))) ;;
     lift (client_new w (to_string (MONGODB_URI w))) ;;
     let client := mkClient (to_string (MONGODB_URI w)) 0 in
     try_finally
       (try_catch
          (connect w client ;;
           console_log "Connected to MongoDB" ;;
           let db := mkDb client DB_NAME in
           emit (CountDocuments db COLLECTION_NAME) ;;
           count <- lift (coll_countDocuments w db COLLECTION_NAME) ;;
           when (0 <? count)%nat
                (console_log ("Collection already contains " ++ of_nat count
                              ++ " documents") ;;
                 emit (Question "Collection is not empty. Do you want to proceed and add more documents? (y/n): ") ;;
                 let answer := user_answer w "Collection is not empty. Do you want to proceed and add more documents? (y/n): " in
                 when (negb ((answer =? "y") || (answer =? "Y")))
                      (console_log "Import cancelled" ;;
                       return_)) ;;
           console_log "Creating text index on input and output fields..." ;;
           emit (CreateIndex db COLLECTION_NAME index_keys index_options) ;;
           lift (coll_createIndex w db COLLECTION_NAME index_keys index_options) ;;
           lines <- lift (match file_lines w FILE_PATH with
                          | Some lines => Ok lines
                          | None => Throw (Error ("ENOENT: no such file or directory, open '"
                                                  ++ FILE_PATH ++ "'"))
                          end) ;;
           put_state (mkLocals 0 0 0 []) ;;
           console_log "Starting import..." ;;
           import_lines w db lines ;;
           emit (Indexes db COLLECTION_NAME) ;;
           indexes <- lift (coll_indexes w db COLLECTION_NAME) ;;
           console_log "Collection indexes:" ;;
           console_log (inspect w indexes))
          (fun err =>
             console_error ("Import failed: " ++ show_exn err)))
       (close client ;;
        console_log "MongoDB connection closed")).

(** The script, lines 8-23 and 154. *)
Definition main (w : World) : Eff Locals unit :=
  match argv2 w with
  | None | Some EmptyString =>
      console_error "Please provide the path to your JSONL file as an argument" ;;
      console_error "Example: node import-to-mongodb.js ./data/examples.jsonl" ;;
      emit (Exit 1)
  | Some FILE_PATH =>
      match file_lines w FILE_PATH with
      | None =>
          console_error ("File not found: " ++ FILE_PATH) ;;
          emit (Exit 1)
      | Some _ =>
          try_catch (importData w FILE_PATH)
                    (fun err => console_error (show_exn err))
      end
  end.

End ImportScript.

(* ================================================================== *)
(** ** The import script that follows utilities/kag-processor.js *)
(* ================================================================== *)

Module ImportExamples.

Import JsString.

Local Open Scope eff_scope.

(** The local variables of [importData]. *)
Record Locals : Type := mkLocals {
  count : nat;
  batch : list JsValue
}.

Definition batchSize : nat := 1000.
Definition collection : JsValue := JsStr "examples".

Definition index_keys : JsValue :=
  JsObj [("input", JsStr "text"); ("output", JsStr "text")].

Definition push (doc : JsValue) (st : Locals) : Locals :=
  mkLocals (count st) (batch st ++ [doc])%list.
Definition incr_count (st : Locals) : Locals :=
  mkLocals (S (count st)) (batch st).
Definition clear_batch (st : Locals) : Locals :=
  mkLocals (count st) [].

(** [await collection.insertMany(batch)] *)
Definition insertMany {S} (w : World) (db : Db) (docs : list JsValue) : Eff S unit :=
  emit (InsertMany db collection docs) ;;
  lift (coll_insertMany w db collection docs).

(** The body of the loop over the lines. *)
Definition loop_body (w : World) (db : Db) (line : string) : Eff Locals unit :=
  try_catch
    (when (negb (is_blank line))
          (doc <- lift (json_parse w line) ;;
           modify (push doc) ;;
           modify incr_count ;;
           st <- get_state ;;
           when (batchSize <=? List.length (batch st))%nat
                (insertMany w db (batch st) ;;
                 console_log ("Imported " ++ of_nat (count st) ++ " documents...") ;;
                 modify clear_batch)))
    (fun err =>
       console_error ("Error parsing line: " ++ show_exn err)).

(** The loop and the statements after it. *)
Definition import_lines (w : World) (db : Db) (lines : list string) : Eff Locals unit :=
  for_of lines (loop_body w db) ;;
  st <- get_state ;;
  when (0 <? List.length (batch st))%nat
       (insertMany w db (batch st)) ;;
  console_log ("Import completed. Total documents imported: " ++ of_nat (count st)).

(** [importData()] *)
Definition importData (w : World) : Eff Locals unit :=
  let MONGODB_URI := env_value w "MONGODB_URI" in
  let FILE_PATH :=
    to_string (or_else (match argv2 w with
                        | Some p => JsStr p
                        | None => JsUndefined
                        end)
                       (JsStr "./data/examples.jsonl")) in
  call
    (if negb (truthy MONGODB_URI) then
       console_error "MONGODB_URI environment variable is required" ;;
       emit (Exit 1)
     else
       match file_lines w FILE_PATH with
       | None =>
           console_error ("File not found: " ++ FILE_PATH) ;;
           emit (Exit 1)
       | Some lines =>
           emit (NewMongoClient (to_string MONGODB_URI)) ;;
           lift (client_new w (to_string MONGODB_URI)) ;;
           let client := mkClient (to_string MONGODB_URI) 0 in
           try_finally
             (try_catch
                (connect w client ;;
                 console_log "Connected to MongoDB" ;;
                 let db := mkDb client "kag-database" in
                 emit (CreateIndex db collection index_keys JsUndefined) ;;
                 lift (coll_createIndex w db collection index_keys JsUndefined) ;;
                 console_log "Created text index on input and output fields" ;;
                 put_state (mkLocals 0 []) ;;
                 console_log "Starting import..." ;;
                 import_lines w db lines)
                (fun err =>
                   console_error ("Error during import: " ++ show_exn err)))
             (close client ;;
              console_log "MongoDB connection closed")
       end).

End ImportExamples.

(* ================================================================== *)
(** ** Sequences of calls and a sample world *)
(* ================================================================== *)

Module Calls.

(** The calls [connect (fst c) (snd c)] made one after the other, each
    from the module state the one before has left: what each call emitted
    and how it completed, and the final module state. *)
Fixpoint run_calls (connect : World -> string -> Handler Db)
  (calls : list (World * string)) (st : ModuleState)
  : list (list event * completion Db) * ModuleState :=
  match calls with
  | [] => ([], st)
  | (w, uri) :: rest =>
      match connect w uri st with
      | (tr, st', c) =>
          let '(outcomes, st'') := run_calls connect rest st' in
          ((tr, c) :: outcomes, st'')
      end
  end.

(** What the specification says of a [connectToDatabase]: a call that
    returns a handle has it in [cachedDb], a call that fails leaves
    [cachedDb] as it was, and from a state with a cached handle every
    call of a sequence returns that handle, emits nothing and leaves the
    module state as it is. *)
Definition keeps_cache (connect : World -> string -> Handler Db) : Prop :=
  (forall w uri st,
      match connect w uri st with
      | (_, st', Normal db) => cachedDb st' = Some db
      | (_, st', _) => cachedDb st' = cachedDb st
      end)
  /\
  (forall db client made calls,
      run_calls connect calls (mkModuleState (Some db) client made)
      = (map (fun _ => ([], Normal db)) calls,
         mkModuleState (Some db) client made)).

End Calls.

Module Sample.

Import JsString.

(** A document of the RAG collection and one of the KAG collection. *)
Definition rag_document : Document :=
  [("instruction", JsStr "What is RAG?");
   ("context", JsStr "Retrieval");
   ("response", JsStr "Retrieval-augmented generation.");
   ("score", JsReal "0.87")].

Definition kag_example : Document :=
  [("input", JsStr "hi"); ("output", JsStr "hello")].

(** A world in which every collaborator answers. *)
Definition world : World := {|
  env := fun name =>
           if name =? "FIREWORKS_API_KEY" then Some "fw-key"
           else if name =? "MONGODB_URI" then Some "mongodb://localhost/rag"
           else None;
  argv2 := Some "examples.jsonl";
  date_new := JsStr "2025-01-01T00:00:00.000Z";
  date_iso := "2025-01-01T00:00:00.000Z";
  date_now := fun reading => Z.of_nat (1000 + reading);
  timer_elapsed := "12.5ms";
  inspect := fun _ => "[ { v: 2, key: { _id: 1 }, name: '_id_' } ]";
  json_parse := fun s =>
                  if s =? "null" then Ok JsNull
                  else if s =? "{}" then Ok (JsObj [])
                  else Throw (SyntaxError "Unexpected token in JSON");
  json_stringify := fun _ => "{}";
  client_new := fun _ => Ok tt;
  client_connect := fun _ => Ok tt;
  coll_stats := fun _ _ => Ok (JsObj [("count", JsNum 2); ("size", JsNum 512)]);
  coll_aggregate := fun _ _ _ => Ok [rag_document];
  coll_find := fun _ _ _ _ _ _ => Ok [kag_example];
  db_command := fun _ _ => Ok (JsObj [("ok", JsNum 1)]);
  coll_countDocuments := fun _ _ => Ok 0;
  coll_createIndex := fun _ _ _ _ => Ok tt;
  coll_insertMany := fun _ _ _ => Ok tt;
  coll_indexes := fun _ _ => Ok (JsArr []);
  fetch := fun url _ =>
             if url =? Rag.embeddings_url then
               Responded
                 (mkHttpResponse true (Ok "")
                    (Ok (JsObj [("data",
                                 JsArr [JsObj [("embedding",
                                                JsArr [JsNum 1; JsNum 0])]])]))
                    [])
             else
               Responded
                 (mkHttpResponse true (Ok "")
                    (Ok (JsObj [("choices",
                                 JsArr [JsObj [("message",
                                                JsObj [("content",
                                                        JsStr "An answer.")])]])]))
                    [OnData (mkBuffer "{}"); OnData (mkBuffer "[DONE]"); OnEnd]);
  file_lines := fun _ => Some ["{}"; ""; "null"; "{"; "{}"];
  user_answer := fun _ => "y"
|}.

(** The same world with a Fireworks API that cannot be reached. *)
Definition offline_world : World := {|
  env := env world;
  argv2 := argv2 world;
  date_new := date_new world;
  date_iso := date_iso world;
  date_now := date_now world;
  timer_elapsed := timer_elapsed world;
  inspect := inspect world;
  json_parse := json_parse world;
  json_stringify := json_stringify world;
  client_new := client_new world;
  client_connect := client_connect world;
  coll_stats := coll_stats world;
  coll_aggregate := coll_aggregate world;
  coll_find := coll_find world;
  db_command := db_command world;
  coll_countDocuments := coll_countDocuments world;
  coll_createIndex := coll_createIndex world;
  coll_insertMany := coll_insertMany world;
  coll_indexes := coll_indexes world;
  fetch := fun _ _ => Rejected (Error "request to https://api.fireworks.ai failed");
  file_lines := file_lines world;
  user_answer := user_answer world
|}.

(** The database of the import scripts, and a file of 101 lines that are
    not JSON followed by a document. *)
Definition kag_db : Db :=
  mkDb (mkClient "mongodb://localhost/rag" 0) "kag-database".

Definition broken_file : list string := (repeat "{" 101 ++ ["{}"])%list.

(** A POST request with a query. *)
Definition post_request : Request :=
  mkRequest "POST" (JsObj [("query", JsStr "What is RAG?")]).

End Sample.

(* ================================================================== *)
(** ** What the import scripts are specified to do *)
(* ================================================================== *)

Module ImportSpec.

(** The documents of the [insertMany] calls of a trace, call by call. *)
Fixpoint inserted (tr : list event) : list (list JsValue) :=
  match tr with
  | [] => []
  | InsertMany _ _ docs :: rest => docs :: inserted rest
  | _ :: rest => inserted rest
  end.

(** Filling batches of [size] documents: [current] is the batch being
    filled, the result is the full batches followed by the batch left
    over. *)
Fixpoint fill {A} (size : nat) (docs : list A) (current : list A)
  : list (list A) * list A :=
  match docs with
  | [] => ([], current)
  | d :: rest =>
      let current' := (current ++ [d])%list in
      if (size <=? List.length current')%nat then
        let '(full, leftover) := fill size rest [] in
        (current' :: full, leftover)
      else fill size rest current'
  end.

(** The batches of [size] documents a list of documents is cut into, the
    last one holding what is left over if anything is. *)
Definition batches {A} (size : nat) (docs : list A) : list (list A) :=
  let '(full, leftover) := fill size docs [] in
  match leftover with
  | [] => full
  | _ :: _ => (full ++ [leftover])%list
  end.

(** Whether [JSON.parse] accepts a line that is not blank. *)
Definition parses (w : World) (line : string) : bool :=
  negb (is_blank line)
  && match json_parse w line with Ok _ => true | Throw _ => false end.

(** Whether [JSON.parse] rejects a line that is not blank. *)
Definition fails_to_parse (w : World) (line : string) : bool :=
  negb (is_blank line)
  && match json_parse w line with Ok _ => false | Throw _ => true end.

(** The value [JSON.parse] makes of a line, for the lines that are not
    blank and that it accepts. *)
Definition parsed_value (w : World) (line : string) : option JsValue :=
  if is_blank line then None
  else match json_parse w line with
       | Ok v => Some v
       | Throw _ => None
       end.

(** The same value with its [importedAt] member, for the lines that give
    a value a member can be set on: any value but [null]. *)
Definition stamped_document (w : World) (line : string) : option JsValue :=
  match parsed_value w line with
  | Some v =>
      match set v "importedAt" (date_new w) with
      | Ok doc => Some doc
      | Throw _ => None
      end
  | None => None
  end.

(** Whether import-to-mongodb.js counts a line as an error when every
    [insertMany] succeeds: the line is not blank and gives no document. *)
Definition is_error_line (w : World) (line : string) : bool :=
  negb (is_blank line)
  && match stamped_document w line with Some _ => false | None => true end.

(** The lines import-to-mongodb.js reads when it has already counted
    [errors] errors: all of them, or those up to the line that takes the
    count of errors above 100. *)
Fixpoint lines_read (w : World) (errors : nat) (lines : list string) : list string :=
  match lines with
  | [] => []
  | line :: rest =>
      if is_error_line w line then
        if (100 <? S errors)%nat then [line]
        else line :: lines_read w (S errors) rest
      else line :: lines_read w errors rest
  end.

(** Every [insertMany] call on the collection succeeds. *)
Definition inserts_succeed (w : World) (db : Db) (coll : JsValue) : Prop :=
  forall docs, coll_insertMany w db coll docs = Ok tt.

(** The [createIndex] call comes before every [insertMany] call of a
    trace. *)
Definition index_before_inserts (keys : JsValue) (tr : list event) : Prop :=
  forall before db coll docs after,
    tr = (before ++ InsertMany db coll docs :: after)%list ->
    exists options, In (CreateIndex db coll keys options) before.

(** An event that is not an [insertMany], or one on [coll] of [db]. *)
Definition targets (db : Db) (coll : JsValue) (e : event) : Prop :=
  match e with
  | InsertMany db' coll' _ => db' = db /\ coll' = coll
  | _ => True
  end.

(** A trace without [insertMany] up to a [createIndex] with [keys], and
    after it with no [insertMany] but on the collection of the index. *)
Fixpoint index_first (keys : JsValue) (tr : list event) : Prop :=
  match tr with
  | [] => True
  | InsertMany _ _ _ :: _ => False
  | CreateIndex db coll keys' _ :: post =>
      keys' = keys /\ Forall (targets db coll) post
  | _ :: rest => index_first keys rest
  end.

(** What import-to-mongodb.js prints after a full batch when [imported]
    documents are in, and at an error on line [line_number] that is the
    [errors]-th. *)
Definition progress_log (imported : nat) : list event :=
  if (imported mod 5000 =? 0)%nat
  then [Console LogLevel ("Imported " ++ JsString.of_nat imported
                          ++ " documents so far...")]
  else [].

Definition error_log (line_number errors : nat) (message : string) : list event :=
  Console ErrorLevel ("Error on line " ++ JsString.of_nat line_number ++ ": "
                      ++ message)
  :: (if (100 <? errors)%nat
      then [Console ErrorLevel "Too many errors, aborting import"]
      else []).

(** The local variables of [importData] before the loop. *)
Definition script_start : ImportScript.Locals := ImportScript.mkLocals 0 0 0 [].
Definition examples_start : ImportExamples.Locals := ImportExamples.mkLocals 0 [].

(** The database handles of the two scripts. *)
Definition script_db (w : World) : Db :=
  mkDb (mkClient (to_string (ImportScript.MONGODB_URI w)) 0) ImportScript.DB_NAME.
Definition examples_db (w : World) : Db :=
  mkDb (mkClient (to_string (env_value w "MONGODB_URI")) 0) "kag-database".

(** The claim as the specification words it, for import-to-mongodb.js: of
    the lines the script reads, those [JSON.parse] accepts are as many as
    the documents inserted and as the count of imported documents. *)
Definition every_parsed_line_is_imported (w : World) (db : Db) (lines : list string)
  : Prop :=
  let run := ImportScript.import_lines w db lines script_start in
  let parsed := filter (parses w) (lines_read w 0 lines) in
  List.length (concat (inserted (trace_of run))) = List.length parsed /\
  ImportScript.importedCount (state_of run) = List.length parsed.

End ImportSpec.

(* ================================================================== *)
(** ** What is observed of a run of the RAG handler *)
(* ================================================================== *)

Module RagSpec.

Import JsString.

(** The steps of the pipeline a trace can show, in the order in which
    the handler is specified to take them. *)
Inductive step : Type :=
| DbNewClient
| DbConnect
| DbStats
| EmbeddingCall
| EmbeddingObtained
| VectorSearch
| PromptAssembled
| LlmCall
| LlmCompleted
| ResponseWritten.

Definition pipeline_order : list step :=
  [DbNewClient; DbConnect; DbStats; EmbeddingCall; EmbeddingObtained;
   VectorSearch; PromptAssembled; LlmCall; LlmCompleted; ResponseWritten].

Definition step_eqb (a b : step) : bool :=
  match a, b with
  | DbNewClient, DbNewClient | DbConnect, DbConnect | DbStats, DbStats
  | EmbeddingCall, EmbeddingCall | EmbeddingObtained, EmbeddingObtained
  | VectorSearch, VectorSearch | PromptAssembled, PromptAssembled
  | LlmCall, LlmCall | LlmCompleted, LlmCompleted
  | ResponseWritten, ResponseWritten => true
  | _, _ => false
  end.

(** The step an event shows: the calls to the driver and to the Fireworks
    API, the messages the handler logs when it has the embedding, the
    context and the answer, and the sending of the response. *)
Definition step_of (e : event) : option step :=
  match e with
  | NewMongoClient _ => Some DbNewClient
  | Connect _ => Some DbConnect
  | Stats _ _ => Some DbStats
  | Fetch url _ =>
      if url =? Rag.embeddings_url then Some EmbeddingCall
      else if url =? Rag.chat_url then Some LlmCall
      else None
  | Console LogLevel msg =>
      if msg =? "Successfully created embedding for query"
      then Some EmbeddingObtained
      else if (msg =? "Successfully prepared context from retrieved documents")
              || (msg =? "No relevant documents found, using empty context")
      then Some PromptAssembled
      else if msg =? "Successfully received response from LLM API"
      then Some LlmCompleted
      else None
  | Aggregate _ _ _ => Some VectorSearch
  | Json _ | End => Some ResponseWritten
  | _ => None
  end.

Definition steps (tr : list event) : list step := collect step_of tr.

(** [s] is [order] with some of its members left out. *)
Fixpoint subsequence (s order : list step) : bool :=
  match s, order with
  | [], _ => true
  | _ :: _, [] => false
  | a :: s', b :: order' =>
      if step_eqb a b then subsequence s' order' else subsequence s order'
  end.

(** What a trace does to the response: the status codes, the bodies, the
    writes and the end. *)
Definition is_output (e : event) : bool :=
  match e with
  | Status _ | Json _ | Write _ | End => true
  | _ => false
  end.

Definition outputs (tr : list event) : list event := filter is_output tr.

(** The [aggregate] calls of a trace. *)
Definition is_aggregate (e : event) : bool :=
  match e with
  | Aggregate _ _ _ => true
  | _ => false
  end.

Definition aggregates (tr : list event) : list event := filter is_aggregate tr.

(** The messages a trace logs with [console.error]. *)
Definition is_error_log (e : event) : bool :=
  match e with
  | Console ErrorLevel _ => true
  | _ => false
  end.

(** A POST request the handler takes to its pipeline: the configuration
    is there and the body is, or parses to, an object with the members
    [fields], of which [query] is truthy. *)
Definition accepted (w : World) (req : Request) (fields : list (string * JsValue))
  : Prop :=
  method req = "POST" /\
  truthy (env_value w "FIREWORKS_API_KEY") = true /\
  truthy (env_value w "MONGODB_URI") = true /\
  parse_body w req = Ok (JsObj fields) /\
  truthy (lookup "query" fields) = true.

(** The [collection] and the [model] of an accepted request, lines 115-117
    of rag.js. *)
Definition collection_of (w : World) (fields : list (string * JsValue)) : JsValue :=
  or_else (or_else (lookup "collectionName" fields) (env_value w "MONGODB_COLLECTION"))
          (JsStr "rag_collection").

Definition model_of (fields : list (string * JsValue)) : JsValue :=
  or_else (lookup "modelName" fields) (JsStr "nomic-ai/nomic-embed-text-v1.5").

(** How the [try] block of Step 2 completes for an accepted request. *)
Definition embedding_outcome (w : World) (fields : list (string * JsValue))
  : completion JsValue :=
  completion_of
    (Rag.embedding_request w (env_value w "FIREWORKS_API_KEY") (model_of fields)
       (lookup "query" fields) initial_state).

(** The body of the canned response of lines 175-180. *)
Definition fallback_body (query : JsValue) (embeddingError : Exn) : JsValue :=
  JsObj [("answer", JsStr (Rag.fallback_answer query));
         ("sources", JsArr []);
         ("fallback", JsBool true);
         ("error", JsStr ("Embedding failed: " ++ exn_message embeddingError))].

(** The body of the response of lines 271-280. *)
Definition answer_body (answer : JsValue) (sources : list JsValue) (usedFallback : bool)
  : JsValue :=
  JsObj [("answer", answer);
         ("sources", JsArr sources);
         ("fallback", JsBool usedFallback)].

(** What the specification says of an entry of [sources]: the document's
    [instruction], [context] and [score] as they are, and its [response],
    a string, whole when it has at most 200 characters and otherwise cut
    after 200 characters and followed by three dots. *)
Definition source_of (doc : Document) (source : JsValue) : Prop :=
  exists response,
    field doc "response" = JsStr response /\
    source = JsObj [("instruction", field doc "instruction");
                    ("response",
                      JsStr (if (String.length response <=? 200)%nat
                             then response
                             else take 200 response ++ "..."));
                    ("context", field doc "context");
                    ("score", field doc "score")].

(** The body [errorResponse] sends, and the body of the [catch] block of
    Steps 5 and 6. *)
Definition error_body (message : string) (details : JsValue) : JsValue :=
  JsObj (if truthy details then [("error", JsStr message); ("details", details)]
         else [("error", JsStr message)]).

Definition llm_error_body (message : string) : JsValue :=
  JsObj [("error", JsStr ("LLM API error: " ++ message))].

(** What the handler does to the response for a request it does not take
    to its pipeline: the answer to a preflight, 405 for another method
    than POST, 500 for a missing configuration, 400 for a body that does
    not parse, 500 when reading the body throws, 400 for a missing
    query. *)
Definition rejection (w : World) (req : Request) : option (list event) :=
  if method req =? "OPTIONS" then Some [Status 204; End]
  else if negb (method req =? "POST")
  then Some [Status 405; Json (error_body "Method Not Allowed" JsNull)]
  else if negb (truthy (env_value w "FIREWORKS_API_KEY"))
          || negb (truthy (env_value w "MONGODB_URI"))
  then Some [Status 500;
             Json (error_body "Configuration error: Missing API keys or MongoDB URI"
                              JsNull)]
  else match parse_body w req with
       | Throw parseError =>
           Some [Status 400;
                 Json (error_body "Invalid JSON in request body"
                                  (JsStr (exn_message parseError)))]
       | Ok requestBody =>
           match get requestBody "query" with
           | Throw error =>
               Some [Status 500;
                     Json (error_body "Internal Server Error"
                                      (JsStr (exn_message error)))]
           | Ok query =>
               if truthy query then None
               else Some [Status 400; Json (error_body "Missing query parameter" JsNull)]
           end
       end.

(** The steps Step 1 can show, and those Step 3 shows with and without a
    database handle. *)
Definition db_steps : list (list step) :=
  [[]; [DbStats]; [DbNewClient]; [DbNewClient; DbConnect];
   [DbNewClient; DbConnect; DbStats]].

Definition searched_steps (db : option Db) : list step :=
  match db with Some _ => [VectorSearch] | None => [] end.

(** The sequences of steps the runs of the handler show. *)
Definition pipeline_runs : list (list step) :=
  [ResponseWritten]
  :: flat_map
       (fun dbs =>
          (dbs ++ [EmbeddingCall; ResponseWritten])%list
          :: flat_map
               (fun searched =>
                  [(dbs ++ [EmbeddingCall; EmbeddingObtained] ++ searched
                    ++ [PromptAssembled; LlmCall; LlmCompleted; ResponseWritten])%list;
                   (dbs ++ [EmbeddingCall; EmbeddingObtained] ++ searched
                    ++ [PromptAssembled; LlmCall; ResponseWritten])%list])
               [[]; [VectorSearch]])
       db_steps.

(** How often a step occurs in a sequence of steps. *)
Definition occurrences (a : step) (s : list step) : nat :=
  List.length (filter (step_eqb a) s).

(** No [b] occurs in [s] before the first [a]. *)
Fixpoint precedes (a b : step) (s : list step) : bool :=
  match s with
  | [] => true
  | x :: rest =>
      if step_eqb x b then false
      else if step_eqb x a then true
      else precedes a b rest
  end.

(** [s] ends with its only [ResponseWritten]. *)
Definition ends_with_response (s : list step) : bool :=
  match rev s with
  | ResponseWritten :: before => (occurrences ResponseWritten before =? 0)%nat
  | _ => false
  end.

End RagSpec.

(* ================================================================== *)
(** ** What is observed of a run of the other handlers *)
(* ================================================================== *)

Module KagSpec.

(** The [find] calls of a trace. *)
Definition is_find (e : event) : bool :=
  match e with
  | Find _ _ _ _ _ _ => true
  | _ => false
  end.

Definition finds (tr : list event) : list event := filter is_find tr.

(** The [find] the specification describes: a text search for [query],
    with the text score projected, sorted by the text score and limited
    to [limit] documents. *)
Definition text_search (db : Db) (coll query limit : JsValue) : event :=
  Find db coll
       (JsObj [("$text", JsObj [("$search", query)])])
       (JsObj [("score", JsObj [("$meta", JsStr "textScore")])])
       (JsObj [("score", JsObj [("$meta", JsStr "textScore")])])
       limit.

(** The result of that [find]. *)
Definition text_search_result (w : World) (db : Db) (coll query limit : JsValue)
  : result (list Document) :=
  coll_find w db coll
            (JsObj [("$text", JsObj [("$search", query)])])
            (JsObj [("score", JsObj [("$meta", JsStr "textScore")])])
            (JsObj [("score", JsObj [("$meta", JsStr "textScore")])])
            limit.

(** The aggregation the specification describes: the [k] = 5 nearest
    neighbours of [vector] on the path [embedding], projected to
    [instruction], [context], [response] and the search score. *)
Definition knn_search (db : Db) (coll vector : JsValue) : event :=
  Aggregate db coll
    (JsArr [
       JsObj [("$search",
                JsObj [("index", JsStr "vector_index");
                       ("knnBeta",
                         JsObj [("vector", vector);
                                ("path", JsStr "embedding");
                                ("k", JsNum 5)])])];
       JsObj [("$project",
                JsObj [("_id", JsNum 0);
                       ("instruction", JsNum 1);
                       ("context", JsNum 1);
                       ("response", JsNum 1);
                       ("score", JsObj [("$meta", JsStr "searchScore")])])]
     ]).

(** The error body of the KAG handlers. *)
Definition kag_error (error message : string) : JsValue :=
  JsObj [("error", JsStr error); ("message", JsStr message)].

(** What the KAG handlers do to the response for a request they do not
    take to the database: the answer to a preflight, 405 for another
    method than POST, 500 for a missing configuration, 400 for a body that
    does not parse, 500 when reading the body throws, 400 for a missing
    query. *)
Definition rejection (w : World) (req : Request) : option (list event) :=
  if method req =? "OPTIONS" then Some [Status 204; End]
  else if negb (method req =? "POST")
  then Some [Status 405; Json (JsObj [("error", JsStr "Method Not Allowed")])]
  else if negb (truthy (env_value w "MONGODB_URI"))
  then Some [Status 500;
             Json (kag_error "Configuration error"
                             "Database connection string not configured")]
  else match parse_body w req with
       | Throw parseError =>
           Some [Status 400;
                 Json (kag_error "Invalid JSON in request body"
                                 (exn_message parseError))]
       | Ok requestBody =>
           match get requestBody "query" with
           | Throw error =>
               Some [Status 500;
                     Json (kag_error "Internal Server Error" (exn_message error))]
           | Ok query =>
               if truthy query then None
               else Some [Status 400;
                          Json (JsObj [("error",
                                        JsStr "Missing required parameter: query")])]
           end
       end.

(** What a KAG handler does to the response: what [rejection] says, or
    for a request taken to the database a 200 with a body, or a 500 with
    the message of what was thrown. *)
Definition kag_response (w : World) (req : Request) (tr : list event) : Prop :=
  match rejection w req with
  | Some out => RagSpec.outputs tr = out
  | None =>
      (exists body, RagSpec.outputs tr = [Status 200; Json body]) \/
      (exists message,
          RagSpec.outputs tr
          = [Status 500; Json (kag_error "Internal Server Error" message)])
  end.

End KagSpec.

Module HandlerSpec.

Import RagSpec.

(** A run logs an error. *)
Definition logs_error (tr : list event) : Prop :=
  exists message, In (Console ErrorLevel message) tr.

(** The response ends with one of the status codes 400, 405 and 500 and a
    JSON body. *)
Definition error_status (code : nat) : bool :=
  ((code =? 400) || (code =? 405) || (code =? 500))%nat.

Definition sends_error_status (tr : list event) : Prop :=
  exists before code body,
    outputs tr = (before ++ [Status code; Json body])%list /\
    error_status code = true.

(** The claim as the specification words it, for one handler: a run that
    logs an error answers with an error status and a JSON body. *)
Definition every_logged_error_gets_an_error_status
  (handler : World -> Request -> Handler unit) : Prop :=
  forall w req st,
    logs_error (trace_of (handler w req st)) ->
    sends_error_status (trace_of (handler w req st)).

(** What the RAG handler does to the response: what [rejection] says, or
    for a request taken to the pipeline the canned response when the
    embedding step throws, and otherwise a 200 with the answer or a 500
    with the message of what Steps 5 and 6 threw (after the 200 already
    set, when that was building the sources). *)
Definition rag_response (w : World) (req : Request) (tr : list event) : Prop :=
  match rejection w req with
  | Some out => outputs tr = out
  | None =>
      exists fields,
        accepted w req fields /\
        match embedding_outcome w fields with
        | Thrown embeddingError =>
            outputs tr
            = [Status 200; Json (fallback_body (lookup "query" fields) embeddingError)]
        | _ =>
            (exists answer sources usedFallback,
                outputs tr = [Status 200; Json (answer_body answer sources usedFallback)])
            \/
            (exists message,
                outputs tr = [Status 500; Json (llm_error_body message)] \/
                outputs tr = [Status 200; Status 500; Json (llm_error_body message)])
        end
  end.

(** The bodies of the status handler. *)
Definition status_error (w : World) (message : string) : JsValue :=
  JsObj [("status", JsStr "error");
         ("message", JsStr message);
         ("time", JsStr (date_iso w))].

(** What the status handler does to the response. *)
Definition status_response (w : World) (req : Request) (tr : list event) : Prop :=
  if method req =? "OPTIONS" then outputs tr = [Status 204; End]
  else if negb (method req =? "GET")
  then outputs tr = [Status 405; Json (JsObj [("error", JsStr "Method not allowed")])]
  else if negb (truthy (env_value w "MONGODB_URI"))
  then outputs tr
       = [Status 500;
          Json (status_error w "MongoDB URI not configured in environment variables")]
  else
    (exists body, outputs tr = [Status 200; Json body]) \/
    (exists message,
        outputs tr
        = [Status 500;
           Json (status_error w ("Failed to connect to MongoDB: " ++ message))] /\
        logs_error tr).

(** What the streaming handler does to the response: a status and a JSON
    body for a preflight, another method than POST and a missing API key,
    and otherwise no status at all: a frame with the message and the end
    of the response when the body does not parse, the request to the
    upstream is rejected or the upstream does not answer ok, and the
    frames of the listeners when it does. *)
Definition streaming_response (w : World) (req : Request) (st : ModuleState)
  (tr : list event) : Prop :=
  if method req =? "OPTIONS" then outputs tr = [Status 204; End]
  else if negb (method req =? "POST")
  then outputs tr = [Status 405; Json (JsObj [("error", JsStr "Method not allowed")])]
  else match parse_body w req with
       | Throw error =>
           outputs tr = [Write (Streaming.error_frame w (exn_message error)); End] /\
           logs_error tr
       | Ok requestBody =>
           if negb (truthy (env_value w "FIREWORKS_API_KEY"))
           then outputs tr
                = [Status 500;
                   Json (JsObj [("error", JsStr "API key not configured on server")])]
           else
             match fetch w Rag.chat_url
                     (Streaming.completion_init w (env_value w "FIREWORKS_API_KEY")
                        requestBody) with
             | Rejected error =>
                 outputs tr
                 = [Write (Streaming.error_frame w (exn_message error)); End] /\
                 logs_error tr
             | Responded response =>
                 if ok response
                 then outputs tr
                      = outputs (trace_of (for_of (body_events response)
                                             (Streaming.listener w) st))
                 else match text response with
                      | Ok errorText =>
                          outputs tr = [Write (Streaming.error_frame w errorText); End]
                      | Throw error =>
                          outputs tr
                          = [Write (Streaming.error_frame w (exn_message error)); End]
                          /\ logs_error tr
                      end
             end
       end.

End HandlerSpec.

(* ================================================================== *)
(** * Properties *)
(* ================================================================== *)

(** ** Strings *)

Module JsStringFacts.

Import JsString.

Lemma take_drop (n : nat) (s : string) : take n s ++ drop n s = s.
Proof.
  revert s; induction n as [|n IH]; intros [|c s]; simpl; try reflexivity.
  now rewrite IH.
Qed.

Lemma append_nil_r (s : string) : s ++ "" = s.
Proof. induction s as [|c s IH]; simpl; [reflexivity | now rewrite IH]. Qed.

Lemma append_assoc (a b c : string) : (a ++ b) ++ c = a ++ (b ++ c).
Proof. induction a as [|x a IH]; simpl; [reflexivity | now rewrite IH]. Qed.

Lemma length_append (a b : string) :
  String.length (a ++ b) = String.length a + String.length b.
Proof. induction a as [|x a IH]; simpl; [reflexivity | now rewrite IH]. Qed.

Lemma length_take (n : nat) (s : string) :
  String.length (take n s) = Nat.min n (String.length s).
Proof.
  revert s; induction n as [|n IH]; intros [|c s]; simpl; try reflexivity.
  now rewrite IH.
Qed.

Lemma take_all (n : nat) (s : string) :
  String.length s <= n -> take n s = s.
Proof.
  revert s; induction n as [|n IH]; intros [|c s]; simpl; intros H;
    try reflexivity; try lia.
  rewrite IH; [reflexivity | lia].
Qed.

Lemma drop_append (a b : string) : drop (String.length a) (a ++ b) = b.
Proof. induction a as [|x a IH]; simpl; [now destruct b | exact IH]. Qed.

Lemma take_append (a b : string) : take (String.length a) (a ++ b) = a.
Proof.
  induction a as [|x a IH]; simpl; [now destruct b | now rewrite IH].
Qed.

(** A string that starts with [p] is [p] followed by the rest. *)
Lemma starts_with_split (p s : string) :
  starts_with p s = true -> s = p ++ drop (String.length p) s.
Proof.
  revert s; induction p as [|a p IH]; intros [|b s]; simpl; intros H;
    try reflexivity; try discriminate.
  apply andb_prop in H as [Hab Hp].
  apply Ascii.eqb_eq in Hab; subst b.
  now rewrite <- IH.
Qed.

Lemma starts_with_length (p s : string) :
  starts_with p s = true -> String.length p <= String.length s.
Proof.
  revert s; induction p as [|a p IH]; intros [|b s]; simpl; intros H;
    try lia; try discriminate.
  apply andb_prop in H as [_ Hp]. apply IH in Hp. lia.
Qed.

Lemma drop_drop (n m : nat) (s : string) : drop n (drop m s) = drop (m + n) s.
Proof.
  revert s; induction m as [|m IH]; intros s; simpl; [reflexivity|].
  destruct s as [|c s]; [now destruct n | apply IH].
Qed.

(** [indexOf] is -1 or a position. *)
Lemma indexOf_range (s p : string) : (-1 <= indexOf s p)%Z.
Proof.
  induction s as [|c s IH]; simpl.
  - destruct (starts_with p ""); lia.
  - destruct (starts_with p (String c s)); [lia|].
    destruct (indexOf s p =? -1)%Z; lia.
Qed.

(** A position [indexOf] returns is one where the pattern occurs, and the
    pattern occurs at no earlier position. *)
Lemma indexOf_found (s p : string) (i : nat) :
  indexOf s p = Z.of_nat i ->
  starts_with p (drop i s) = true /\
  forall j, j < i -> starts_with p (drop j s) = false.
Proof.
  revert i; induction s as [|c s IH]; intros i; simpl.
  - destruct (starts_with p "") eqn:E; [|lia].
    intros Hi. assert (i = 0) by lia. subst i. simpl. split; [exact E | lia].
  - destruct (starts_with p (String c s)) eqn:E.
    + intros Hi. assert (i = 0) by lia. subst i. simpl. split; [exact E | lia].
    + destruct (indexOf s p =? -1)%Z eqn:E1; [lia|].
      intros Hi. apply Z.eqb_neq in E1.
      pose proof (indexOf_range s p) as Hr.
      destruct i as [|i]; [lia|].
      destruct (IH i) as [Hat Hbefore]; [lia|].
      split; [exact Hat|].
      intros [|j] Hj; simpl; [exact E | apply Hbefore; lia].
Qed.

(** When [indexOf] returns -1 the pattern occurs nowhere. *)
Lemma indexOf_absent (s p : string) :
  indexOf s p = (-1)%Z -> forall j, starts_with p (drop j s) = false.
Proof.
  induction s as [|c s IH]; simpl.
  - destruct (starts_with p "") eqn:E; [discriminate|].
    intros _ j. now destruct j.
  - destruct (starts_with p (String c s)) eqn:E; [discriminate|].
    destruct (indexOf s p =? -1)%Z eqn:E1.
    + intros _ [|j]; simpl; [exact E|]. apply IH. now apply Z.eqb_eq.
    + pose proof (indexOf_range s p). apply Z.eqb_neq in E1. lia.
Qed.

End JsStringFacts.

(** ** Numbers *)

Module JsNumberFacts.

Import JsString.

(** Reading digits after a positive number, after zero and from the
    start gives the number the digits write. *)
Lemma read_digits_acc (d : Decimal.uint) (acc : positive) :
  read_digits 10 (NilEmpty.string_of_uint d) (Some (Zpos acc))
  = Some (Zpos (Pos.of_uint_acc d acc)).
Proof.
  revert acc. induction d; intros acc;
    cbn [NilEmpty.string_of_uint read_digits Pos.of_uint_acc];
    try reflexivity;
    (change (digit_of 10 _) with (Some 0%Z) || change (digit_of 10 _) with (Some 1%Z)
     || change (digit_of 10 _) with (Some 2%Z) || change (digit_of 10 _) with (Some 3%Z)
     || change (digit_of 10 _) with (Some 4%Z) || change (digit_of 10 _) with (Some 5%Z)
     || change (digit_of 10 _) with (Some 6%Z) || change (digit_of 10 _) with (Some 7%Z)
     || change (digit_of 10 _) with (Some 8%Z) || change (digit_of 10 _) with (Some 9%Z));
    cbv iota beta;
    rewrite <- IHd; do 2 f_equal; lia.
Qed.

Lemma read_digits_zero (d : Decimal.uint) :
  read_digits 10 (NilEmpty.string_of_uint d) (Some 0%Z)
  = Some (Z.of_N (Pos.of_uint d)).
Proof.
  induction d; cbn [NilEmpty.string_of_uint read_digits Pos.of_uint];
    try reflexivity;
    (change (digit_of 10 _) with (Some 0%Z) || change (digit_of 10 _) with (Some 1%Z)
     || change (digit_of 10 _) with (Some 2%Z) || change (digit_of 10 _) with (Some 3%Z)
     || change (digit_of 10 _) with (Some 4%Z) || change (digit_of 10 _) with (Some 5%Z)
     || change (digit_of 10 _) with (Some 6%Z) || change (digit_of 10 _) with (Some 7%Z)
     || change (digit_of 10 _) with (Some 8%Z) || change (digit_of 10 _) with (Some 9%Z));
    cbv iota beta; cbn [Z.mul Z.add Z.of_N]; try exact IHd; apply read_digits_acc.
Qed.

Lemma read_digits_start (d : Decimal.uint) :
  d <> Decimal.Nil ->
  read_digits 10 (NilEmpty.string_of_uint d) None = Some (Z.of_N (Pos.of_uint d)).
Proof.
  destruct d; intros Hd; try congruence;
    cbn [NilEmpty.string_of_uint read_digits Pos.of_uint];
    (change (digit_of 10 _) with (Some 0%Z) || change (digit_of 10 _) with (Some 1%Z)
     || change (digit_of 10 _) with (Some 2%Z) || change (digit_of 10 _) with (Some 3%Z)
     || change (digit_of 10 _) with (Some 4%Z) || change (digit_of 10 _) with (Some 5%Z)
     || change (digit_of 10 _) with (Some 6%Z) || change (digit_of 10 _) with (Some 7%Z)
     || change (digit_of 10 _) with (Some 8%Z) || change (digit_of 10 _) with (Some 9%Z));
    cbv iota beta; cbn [Z.of_N]; first [apply read_digits_zero | apply read_digits_acc].
Qed.

(** Reading the decimal notation of digits that are not empty. *)
Lemma parseInt_digits (d : Decimal.uint) :
  d <> Decimal.Nil ->
  parseInt_string (NilEmpty.string_of_uint d) = JsNum (Z.of_N (Pos.of_uint d)) /\
  parseInt_string (String "-" (NilEmpty.string_of_uint d))
  = JsNum (- Z.of_N (Pos.of_uint d)).
Proof.
  intros Hd. pose proof (read_digits_start d Hd) as Hread.
  unfold parseInt_string.
  destruct d as [|l|l|l|l|l|l|l|l|l|l]; try congruence;
    cbn [NilEmpty.string_of_uint skip_spaces] in *;
    try (change (is_space _) with false; cbv iota; rewrite Hread; split; reflexivity).
  (* a first digit 0 is not the start of a hexadecimal prefix *)
  change (is_space _) with false; cbv iota.
  destruct l; cbn [NilEmpty.string_of_uint] in *; rewrite Hread; split; reflexivity.
Qed.

(** [parseInt] of an integer is that integer. *)
Lemma parseInt_integer (n : Z) : parseInt (JsNum n) = JsNum n.
Proof.
  unfold parseInt. cbn [to_string]. unfold of_Z, Z.to_int.
  destruct n as [|p|p]; [reflexivity| |];
    cbn [NilZero.string_of_int]; unfold NilZero.string_of_uint;
    pose proof (DecimalPos.Unsigned.to_uint_nonnil p) as Hd;
    destruct (parseInt_digits (Pos.to_uint p) Hd) as [Hpos Hneg];
    rewrite DecimalPos.Unsigned.of_to in Hpos, Hneg;
    destruct (Pos.to_uint p); try congruence; assumption.
Qed.

End JsNumberFacts.

(** ** utilities/kag-processor.js *)

Module KagProcessorFacts.

Import JsString JsStringFacts KagProcessor.

Lemma drop_past_end (n : nat) (s : string) :
  String.length s <= n -> drop n s = "".
Proof.
  revert s; induction n as [|n IH]; intros [|c s]; simpl; intros H;
    try reflexivity; try lia.
  apply IH; lia.
Qed.

(** Where [p] occurs at position [n] of [s], [s] is its first [n]
    characters, then [p], then what follows. *)
Lemma split_at_occurrence (p s : string) (n : nat) :
  p <> "" ->
  starts_with p (drop n s) = true ->
  String.length (take n s) = n /\
  s = take n s ++ p ++ drop (n + String.length p) s.
Proof.
  intros Hp H.
  assert (Hn : n < String.length s).
  { destruct (Nat.lt_ge_cases n (String.length s)) as [Hlt|Hge]; [exact Hlt|].
    rewrite (drop_past_end n s Hge) in H.
    destruct p; [congruence | discriminate]. }
  split.
  - rewrite length_take. lia.
  - rewrite <- drop_drop, <- (starts_with_split p (drop n s) H).
    symmetry; apply take_drop.
Qed.

(** C8.  [augmentPromptWithKagExamples] returns the prompt itself when
    there are no examples ([null], [undefined] or an empty array).
    Otherwise the prompt is cut after its first blank line and the
    formatted examples are put between the two pieces; a prompt without a
    blank line is followed by a blank line and the formatted examples.  In
    both cases the characters of the prompt are all there, in their
    order. *)
Theorem augment_keeps_prompt (systemPrompt : string) (examples : option (list Document)) :
  match examples with
  | None | Some [] =>
      augmentPromptWithKagExamples systemPrompt examples = systemPrompt
  | Some (_ :: _) =>
      (exists before after,
          first_paragraph_break systemPrompt before after /\
          augmentPromptWithKagExamples systemPrompt examples
          = (before ++ LF ++ LF) ++ formatKagExamples examples ++ after)
      \/
      (no_paragraph_break systemPrompt /\
       augmentPromptWithKagExamples systemPrompt examples
       = systemPrompt ++ (LF ++ LF) ++ formatKagExamples examples)
  end.
Proof.
  destruct examples as [[|example rest]|]; try reflexivity.
  unfold augmentPromptWithKagExamples.
  set (formatted := formatKagExamples (Some (example :: rest))).
  destruct (indexOf systemPrompt (LF ++ LF) =? -1)%Z eqn:E; simpl negb; cbv iota.
  - right. apply Z.eqb_eq in E. split.
    + exact (indexOf_absent _ _ E).
    + reflexivity.
  - left. apply Z.eqb_neq in E.
    pose proof (indexOf_range systemPrompt (LF ++ LF)) as Hr.
    remember (Z.to_nat (indexOf systemPrompt (LF ++ LF))) as n eqn:Hn.
    assert (Hi : indexOf systemPrompt (LF ++ LF) = Z.of_nat n) by lia.
    destruct (indexOf_found _ _ _ Hi) as [Hat Hfirst].
    destruct (split_at_occurrence (LF ++ LF) systemPrompt n) as [Hlen Hsplit];
      [discriminate | exact Hat |].
    replace (Z.to_nat (indexOf systemPrompt (LF ++ LF) + 2)) with (n + 2) by lia.
    exists (take n systemPrompt), (drop (n + 2) systemPrompt).
    split.
    + split; [exact Hsplit|].
      intros j Hj. apply Hfirst. now rewrite Hlen in Hj.
    + unfold substring. rewrite Nat.sub_0_r. simpl (drop 0 _).
      f_equal.
      set (before := take n systemPrompt) in *.
      set (after := drop (n + 2) systemPrompt) in *.
      assert (Hcut : take (n + 2) systemPrompt = before ++ LF ++ LF).
      { rewrite Hsplit at 1. rewrite <- append_assoc.
        replace (n + 2) with (String.length (before ++ LF ++ LF))
          by (rewrite length_append, Hlen; reflexivity).
        apply take_append. }
      destruct systemPrompt; exact Hcut.
Qed.

End KagProcessorFacts.

(** ** Running statements *)

(** Unfolds the statement combinators and the console, response and driver
    statements, leaving oracles and the steps of the handlers folded. *)
Ltac eff :=
  cbv beta iota zeta delta
    [bind ret throw return_ break_ try_catch try_finally call emit lift
     get_state put_state modify when
     console_log console_warn console_error
     res_setHeader res_status res_json res_write res_end
     do_fetch connect close new_MongoClient set_cachedDb set_cachedClient
     trace_of state_of completion_of fst snd negb orb andb
     ImportScript.insertMany ImportExamples.insertMany
     ImportScript.incr_lineCount ImportScript.incr_errorCount ImportScript.push
     ImportScript.add_imported ImportScript.clear_batch
     ImportScript.lineCount ImportScript.importedCount ImportScript.errorCount
     ImportScript.batch
     ImportExamples.push ImportExamples.incr_count ImportExamples.clear_batch
     ImportExamples.count ImportExamples.batch
     cachedDb cachedClient clients_made];
  cbn [app truthy].

Ltac eff_in H :=
  cbv beta iota zeta delta
    [bind ret throw return_ break_ try_catch try_finally call emit lift
     get_state put_state modify when
     console_log console_warn console_error
     res_setHeader res_status res_json res_write res_end
     do_fetch connect close new_MongoClient set_cachedDb set_cachedClient
     trace_of state_of completion_of fst snd negb orb andb
     ImportScript.insertMany ImportExamples.insertMany
     ImportScript.incr_lineCount ImportScript.incr_errorCount ImportScript.push
     ImportScript.add_imported ImportScript.clear_batch
     ImportScript.lineCount ImportScript.importedCount ImportScript.errorCount
     ImportScript.batch
     ImportExamples.push ImportExamples.incr_count ImportExamples.clear_batch
     ImportExamples.count ImportExamples.batch
     cachedDb cachedClient clients_made] in H;
  cbn [app truthy] in H.

(** Splits on every outcome the goal still waits for. *)
Ltac split_outcomes :=
  repeat (match goal with
          | |- context [match ?x with _ => _ end] =>
              lazymatch x with
              | context [match _ with _ => _ end] => fail
              | _ => destruct x eqn:?
              end
          end; eff).

Module EffectsFacts.

(** The run of [m ;; k], from the run of [m]. *)
Lemma run_bind {S A B} (m : Eff S A) (k : A -> Eff S B) (st : S) :
  bind m k st =
  match m st with
  | (tr, st', Normal a) =>
      ((tr ++ trace_of (k a st'))%list, state_of (k a st'), completion_of (k a st'))
  | (tr, st', Thrown e) => (tr, st', Thrown e)
  | (tr, st', Returned) => (tr, st', Returned)
  | (tr, st', Broken) => (tr, st', Broken)
  end.
Proof.
  unfold bind. destruct (m st) as [[tr st'] [a|e| |]]; try reflexivity.
  now destruct (k a st') as [[tr' st''] c].
Qed.

(** What holds of the events of every run of the body holds of the
    events of the loop. *)
Lemma for_of_Forall {S X} (P : event -> Prop) (body : X -> Eff S unit) :
  (forall x st, Forall P (trace_of (body x st))) ->
  forall xs st, Forall P (trace_of (for_of xs body st)).
Proof.
  intros Hbody xs. induction xs as [|x xs IH]; intros st; cbn [for_of].
  - constructor.
  - specialize (Hbody x st). destruct (body x st) as [[tr st'] [[]|e| |]];
      cbn [trace_of fst] in *; try exact Hbody.
    specialize (IH st').
    destruct (for_of xs body st') as [[tr' st''] c]. cbn [trace_of fst] in *.
    apply Forall_app. now split.
Qed.

End EffectsFacts.

(** ** api/streaming.js *)

Module StreamingFacts.

Import JsString Streaming EffectsFacts.

(** The listeners write one frame for each chunk, in the order of the
    chunks, and answer the end of the stream with the closing frame. *)
Lemma listeners_forward (w : World) (chunks : list Buffer) (st : ModuleState) :
  for_of (map OnData chunks ++ [OnEnd]) (listener w) st
  = ((map (fun chunk => Write ("data: " ++ toString chunk ++ LF ++ LF)) chunks
      ++ [Write ("data: [DONE]" ++ LF ++ LF); End])%list,
     st, Normal tt).
Proof.
  induction chunks as [|chunk chunks IH]; simpl.
  - reflexivity.
  - now rewrite IH.
Qed.

(** C4.  When the upstream answers a POST with a body that emits the
    chunks [chunks] and then ends, the handler writes, after its headers
    and the upstream request, one frame ['data: ' + chunk.toString() +
    '\n\n'] for each chunk, in order and nothing in between, then
    ['data: [DONE]\n\n'], and then ends the response. *)
Theorem streaming_forwards_each_chunk
  (w : World) (req : Request) (st : ModuleState)
  (requestBody : JsValue) (response : HttpResponse) (chunks : list Buffer) :
  method req = "POST" ->
  parse_body w req = Ok requestBody ->
  truthy (env_value w "FIREWORKS_API_KEY") = true ->
  fetch w Rag.chat_url
        (completion_init w (env_value w "FIREWORKS_API_KEY") requestBody)
  = Responded response ->
  ok response = true ->
  body_events response = (map OnData chunks ++ [OnEnd])%list ->
  handler w req st =
  (([SetHeader "Access-Control-Allow-Origin" "*";
     SetHeader "Access-Control-Allow-Methods" "POST, OPTIONS";
     SetHeader "Access-Control-Allow-Headers" "Content-Type, Authorization";
     SetHeader "Content-Type" "text/event-stream";
     SetHeader "Cache-Control" "no-cache";
     SetHeader "Connection" "keep-alive";
     Fetch Rag.chat_url
           (completion_init w (env_value w "FIREWORKS_API_KEY") requestBody)]
    ++ map (fun chunk => Write ("data: " ++ toString chunk ++ LF ++ LF)) chunks
    ++ [Write ("data: [DONE]" ++ LF ++ LF); End])%list,
   st, Normal tt).
Proof.
  intros Hmethod Hbody Hkey Hfetch Hok Hevents.
  unfold handler, handler_sync.
  rewrite Hmethod.
  change ("POST" =? "OPTIONS") with false.
  change ("POST" =? "POST") with true.
  rewrite Hbody, Hkey. eff.
  rewrite Hfetch. eff.
  rewrite Hok. eff.
  rewrite Hevents, listeners_forward. eff.
  reflexivity.
Qed.

(** The theorem applies to the sample world, whose upstream emits two
    chunks and ends. *)
Lemma streaming_forwards_each_chunk_witness :
  handler Sample.world Sample.post_request initial_state =
  ([SetHeader "Access-Control-Allow-Origin" "*";
    SetHeader "Access-Control-Allow-Methods" "POST, OPTIONS";
    SetHeader "Access-Control-Allow-Headers" "Content-Type, Authorization";
    SetHeader "Content-Type" "text/event-stream";
    SetHeader "Cache-Control" "no-cache";
    SetHeader "Connection" "keep-alive";
    Fetch Rag.chat_url
          (completion_init Sample.world (JsStr "fw-key")
                           (JsObj [("query", JsStr "What is RAG?")]));
    Write ("data: {}" ++ LF ++ LF);
    Write ("data: [DONE]" ++ LF ++ LF);
    Write ("data: [DONE]" ++ LF ++ LF);
    End],
   initial_state, Normal tt).
Proof.
  apply (streaming_forwards_each_chunk
           Sample.world Sample.post_request initial_state
           (JsObj [("query", JsStr "What is RAG?")])
           (mkHttpResponse true (Ok "")
              (Ok (JsObj [("choices",
                           JsArr [JsObj [("message",
                                          JsObj [("content",
                                                  JsStr "An answer.")])]])]))
              [OnData (mkBuffer "{}"); OnData (mkBuffer "[DONE]"); OnEnd])
           [mkBuffer "{}"; mkBuffer "[DONE]"]);
    reflexivity.
Defined.

End StreamingFacts.

(** ** The connection cache *)

Module CacheFacts.

Import Calls.

(** A [connectToDatabase] that returns the cached handle at once keeps
    doing so along any sequence of calls. *)
Lemma cached_calls (connect : World -> string -> Handler Db) :
  (forall w uri db client made,
      connect w uri (mkModuleState (Some db) client made)
      = ([], mkModuleState (Some db) client made, Normal db)) ->
  forall db client made calls,
    run_calls connect calls (mkModuleState (Some db) client made)
    = (map (fun _ => ([], Normal db)) calls, mkModuleState (Some db) client made).
Proof.
  intros Hhit db client made calls.
  induction calls as [|[w uri] calls IH]; simpl.
  - reflexivity.
  - now rewrite Hhit, IH.
Qed.

Lemma rag_keeps_cache : keeps_cache Rag.connectToDatabase.
Proof.
  split.
  - intros w uri [[db|] client made]; unfold Rag.connectToDatabase; eff.
    + reflexivity.
    + destruct (client_new w uri) as [[]|e]; eff; [|reflexivity].
      destruct (client_connect w (mkClient uri made)) as [[]|e]; eff; reflexivity.
  - apply cached_calls. reflexivity.
Qed.

Lemma status_keeps_cache : keeps_cache Status.connectToDatabase.
Proof.
  split.
  - intros w uri [[db|] client made]; unfold Status.connectToDatabase; eff.
    + reflexivity.
    + destruct (client_new w uri) as [[]|e]; eff; [|reflexivity].
      destruct (client_connect w (mkClient uri made)) as [[]|e]; eff; reflexivity.
  - apply cached_calls. reflexivity.
Qed.

Lemma kag_keeps_cache : keeps_cache Kag.connectToDatabase.
Proof.
  split.
  - intros w uri [[db|] client made]; unfold Kag.connectToDatabase; eff.
    + reflexivity.
    + destruct (client_new w uri) as [[]|e]; eff; [|reflexivity].
      destruct (client_connect w (mkClient uri made)) as [[]|e]; eff; reflexivity.
  - apply cached_calls. reflexivity.
Qed.

(** C3.  In each of the three handler files, a call of
    [connectToDatabase] that returns a handle has stored it in [cachedDb],
    a call that fails leaves [cachedDb] as it was, and once a handle is
    cached every later call of any sequence of calls returns that handle
    without constructing a [MongoClient] or connecting (it emits no
    event) and leaves the cached handle in place. *)
Theorem connection_cache_is_kept :
  keeps_cache Rag.connectToDatabase /\
  keeps_cache Status.connectToDatabase /\
  keeps_cache Kag.connectToDatabase.
Proof.
  exact (conj rag_keeps_cache (conj status_keeps_cache kag_keeps_cache)).
Qed.

End CacheFacts.

(** ** The import scripts *)

Module ImportFacts.

Import JsString ImportSpec EffectsFacts.

(** *** Batches *)

Lemma fill_concat {A} (size : nat) (docs current : list A) :
  (concat (fst (fill size docs current)) ++ snd (fill size docs current)
   = current ++ docs)%list.
Proof.
  revert current; induction docs as [|d docs IH]; intros current; simpl.
  - now rewrite app_nil_r.
  - destruct (size <=? List.length (current ++ [d]))%nat.
    + specialize (IH []). destruct (fill size docs []) as [full leftover].
      simpl in *. rewrite <- app_assoc, IH. now rewrite <- app_assoc.
    + rewrite IH. now rewrite <- app_assoc.
Qed.

Lemma fill_sizes {A} (size : nat) (docs current : list A) :
  List.length current < size ->
  Forall (fun b => List.length b = size) (fst (fill size docs current)) /\
  List.length (snd (fill size docs current)) < size.
Proof.
  revert current; induction docs as [|d docs IH]; intros current Hcur; simpl.
  - split; [constructor | exact Hcur].
  - destruct (size <=? List.length (current ++ [d]))%nat eqn:E.
    + apply Nat.leb_le in E. rewrite length_app in E. simpl in E.
      destruct (IH []) as [Hfull Hleft]; [simpl; lia|].
      destruct (fill size docs []) as [full leftover]. simpl in *.
      split; [|exact Hleft].
      constructor; [|exact Hfull].
      rewrite length_app. simpl. lia.
    + apply Nat.leb_gt in E. apply IH. exact E.
Qed.

Lemma in_init {A} (l1 : list A) (x : A) (l2 : list A) (y : A) (rest : list A) :
  (l1 ++ [x] = l2 ++ y :: rest)%list -> rest <> [] -> In y l1.
Proof.
  revert l2; induction l1 as [|a l1 IH]; intros l2 H Hrest.
  - destruct l2 as [|b [|c l2]]; simpl in H; injection H as _ H;
      try (subst rest; congruence); discriminate.
  - destruct l2 as [|b l2]; simpl in H; injection H as Ha H.
    + now left.
    + right. exact (IH l2 H Hrest).
Qed.

(** The batches of a list of documents hold the documents, each once and
    in their order. *)
Lemma batches_concat {A} (size : nat) (docs : list A) :
  concat (batches size docs) = docs.
Proof.
  unfold batches. pose proof (fill_concat size docs []) as H.
  destruct (fill size docs []) as [full [|d leftover]]; simpl in *.
  - now rewrite app_nil_r in H.
  - rewrite concat_app. simpl. now rewrite app_nil_r.
Qed.

(** All batches but the last hold [size] documents, and the last one
    holds at least one and at most [size]. *)
Lemma batches_sizes {A} (size : nat) (docs : list A) :
  0 < size ->
  forall before b after,
    batches size docs = (before ++ b :: after)%list ->
    0 < List.length b <= size /\ (after <> [] -> List.length b = size).
Proof.
  intros Hsize before b after. unfold batches.
  destruct (fill_sizes size docs []) as [Hfull Hleft]; [simpl; lia|].
  destruct (fill size docs []) as [full leftover]. simpl in *.
  assert (Hin : forall x, In x full -> List.length x = size)
    by (now apply Forall_forall).
  destruct leftover as [|d leftover].
  - intros ->. assert (Hb : List.length b = size)
      by (apply Hin, in_elt).
    split; [lia | intros _; exact Hb].
  - intros Heq.
    destruct after as [|a after].
    + apply app_inj_tail in Heq as [_ <-]. simpl in *.
      split; [lia | congruence].
    + assert (Hb : In b full)
        by (apply (in_init _ _ _ _ _ Heq); discriminate).
      apply Hin in Hb. split; [lia | intros _; exact Hb].
Qed.


(** *** Traces *)

Lemma inserted_app (a b : list event) :
  inserted (a ++ b) = (inserted a ++ inserted b)%list.
Proof.
  induction a as [|e a IH]; simpl; [reflexivity|].
  destruct e; simpl; rewrite ?IH; reflexivity.
Qed.

Lemma inserted_progress_log (n : nat) : inserted (progress_log n) = [].
Proof. unfold progress_log. now destruct (n mod 5000 =? 0)%nat. Qed.

Lemma inserted_error_log (n e : nat) (m : string) : inserted (error_log n e m) = [].
Proof. unfold error_log. now destruct (100 <? e)%nat. Qed.

(** In a trace that is [pre], then the creation of the index, then
    insertions into the collection of the index only, the index is created
    before every insertion. *)
Lemma index_then_inserts keys db coll options pre post :
  inserted pre = [] ->
  Forall (targets db coll) post ->
  index_before_inserts keys (pre ++ CreateIndex db coll keys options :: post).
Proof.
  intros Hpre Hpost before db' coll' docs after.
  revert before. induction pre as [|p pre IH]; intros before Heq.
  - destruct before as [|b before]; [discriminate|].
    injection Heq as <- Hrest.
    assert (Hin : In (InsertMany db' coll' docs) post)
      by (rewrite Hrest; apply in_elt).
    rewrite Forall_forall in Hpost. destruct (Hpost _ Hin) as [-> ->].
    exists options. now left.
  - destruct before as [|b before].
    + injection Heq as -> _. discriminate.
    + injection Heq as <- Hrest.
      destruct (IH ltac:(now destruct p) before Hrest) as [options' Hin].
      exists options'. now right.
Qed.

Lemma no_inserts_no_order keys tr :
  inserted tr = [] -> index_before_inserts keys tr.
Proof.
  intros Hnone before db coll docs after ->.
  rewrite inserted_app in Hnone. cbn in Hnone.
  now destruct (inserted before).
Qed.

Lemma index_first_sound keys tr :
  index_first keys tr -> index_before_inserts keys tr.
Proof.
  intros H.
  assert (Hshape : inserted tr = [] \/
                   exists pre db coll options post,
                     tr = (pre ++ CreateIndex db coll keys options :: post)%list /\
                     inserted pre = [] /\ Forall (targets db coll) post).
  { induction tr as [|e tr IH]; [now left|].
    destruct e; cbn [index_first] in H;
      try (destruct (IH H)
             as [Hnone | (pre & db' & coll' & options' & post & -> & Hpre & Hpost)];
           [now left | right;
            eexists (_ :: pre), db', coll', options', post;
            repeat split; assumption]).
    - destruct H as [-> Hpost]. right.
      now exists [], db, coll, options, tr.
    - contradiction. }
  destruct Hshape as [Hnone | (pre & db & coll & options & post & -> & Hpre & Hpost)].
  - now apply no_inserts_no_order.
  - now apply index_then_inserts.
Qed.

(** *** data-import/import-to-mongodb.js, in any world *)

Lemma script_body_targets w db line st :
  Forall (targets db ImportScript.COLLECTION_NAME)
         (trace_of (ImportScript.loop_body w db line st)).
Proof.
  unfold ImportScript.loop_body. destruct st as [lines imported errors current].
  eff. split_outcomes; repeat constructor.
Qed.

(** One turn of the loop reads one line.  It ends the loop only with the
    message of the abort and more than 100 errors counted; otherwise it
    leaves at most 100 errors counted, one more than before at least if
    the line is not JSON. *)
Lemma script_body_errors w db line st :
  ImportScript.errorCount st <= 100 ->
  match ImportScript.loop_body w db line st with
  | (_, st', Normal _) =>
      ImportScript.lineCount st' = S (ImportScript.lineCount st) /\
      ImportScript.errorCount st' <= 100 /\
      ImportScript.errorCount st
      + (if fails_to_parse w line then 1 else 0) <= ImportScript.errorCount st'
  | (tr, st', Broken) =>
      ImportScript.lineCount st' = S (ImportScript.lineCount st) /\
      In (Console ErrorLevel "Too many errors, aborting import") tr
  | _ => False
  end.
Proof.
  unfold ImportScript.loop_body, fails_to_parse.
  destruct st as [lines imported errors current].
  cbn [ImportScript.errorCount ImportScript.lineCount].
  intros Hle. eff. split_outcomes; cbn; try exact I;
    repeat match goal with
           | H : (_ <? _)%nat = false |- _ => apply Nat.ltb_ge in H
           end;
    repeat split; try lia; auto.
Qed.

(** Once more than 100 lines of [read] are not JSON, the loop over
    [read ++ rest] is the loop over [read], and it has printed the message
    of the abort and read no more lines than [read] has. *)
Lemma script_abort w db (read rest : list string) : forall st,
  ImportScript.errorCount st <= 100 ->
  100 < ImportScript.errorCount st + List.length (filter (fails_to_parse w) read) ->
  let run := for_of read (ImportScript.loop_body w db) st in
  for_of (read ++ rest) (ImportScript.loop_body w db) st = run /\
  In (Console ErrorLevel "Too many errors, aborting import") (trace_of run) /\
  ImportScript.lineCount (state_of run)
  <= ImportScript.lineCount st + List.length read.
Proof.
  induction read as [|line read IH]; intros st Hle Hmany.
  - cbn in Hmany. lia.
  - cbn [app for_of List.length].
    pose proof (script_body_errors w db line st Hle) as Hbody.
    destruct (ImportScript.loop_body w db line st) as [[tr st'] [[]|e| |]];
      try contradiction.
    + destruct Hbody as (Hline & Hle' & Hcount).
      destruct (IH st' Hle') as (Hsame & Hlog & Hlines).
      { cbn [filter] in Hmany.
        destruct (fails_to_parse w line); cbn in Hmany; lia. }
      cbn zeta in *. rewrite Hsame.
      destruct (for_of read (ImportScript.loop_body w db) st') as [[tr' st''] c].
      cbn [trace_of state_of fst snd] in *.
      repeat split; [apply in_or_app; now right | lia].
    + destruct Hbody as (Hline & Hlog).
      cbn [trace_of state_of fst snd]. repeat split; [exact Hlog | lia].
Qed.

Lemma script_import_lines_targets w db lines st :
  Forall (targets db ImportScript.COLLECTION_NAME)
         (trace_of (ImportScript.import_lines w db lines st)).
Proof.
  unfold ImportScript.import_lines. rewrite run_bind.
  pose proof (for_of_Forall _ _ (script_body_targets w db) lines st) as Hloop.
  destruct (for_of lines (ImportScript.loop_body w db) st) as [[tr st'] [[]|e| |]];
    cbn [trace_of state_of completion_of fst snd] in *; try exact Hloop.
  destruct st' as [n imported errors current].
  apply Forall_app. split; [exact Hloop|].
  eff. split_outcomes; repeat constructor.
Qed.

Lemma script_index_first w path st :
  index_before_inserts ImportScript.index_keys
    (trace_of (ImportScript.importData w path st)).
Proof.
  apply index_first_sound.
  pose proof (script_import_lines_targets w) as Hlines.
  unfold ImportScript.importData. eff.
  split_outcomes; cbn [index_first]; try exact I;
    (split; [reflexivity|]);
    repeat match goal with
           | |- Forall _ [] => constructor
           | |- Forall _ (_ :: _) => constructor; [exact I |]
           | |- Forall _ (_ ++ _) => apply Forall_app; split
           | H : ImportScript.import_lines w ?db ?l ?s = (?tr, _, _)
             |- Forall _ ?tr =>
               let Ht := fresh in
               pose proof (Hlines db l s) as Ht; rewrite H in Ht; exact Ht
           end.
Qed.

(** *** The import script of part_000, in any world *)

Lemma examples_body_targets w db line st :
  Forall (targets db ImportExamples.collection)
         (trace_of (ImportExamples.loop_body w db line st)).
Proof.
  unfold ImportExamples.loop_body. destruct st as [n current].
  eff. split_outcomes; repeat constructor.
Qed.

Lemma examples_import_lines_targets w db lines st :
  Forall (targets db ImportExamples.collection)
         (trace_of (ImportExamples.import_lines w db lines st)).
Proof.
  unfold ImportExamples.import_lines. rewrite run_bind.
  pose proof (for_of_Forall _ _ (examples_body_targets w db) lines st) as Hloop.
  destruct (for_of lines (ImportExamples.loop_body w db) st) as [[tr st'] [[]|e| |]];
    cbn [trace_of state_of completion_of fst snd] in *; try exact Hloop.
  destruct st' as [n current].
  apply Forall_app. split; [exact Hloop|].
  eff. split_outcomes; repeat constructor.
Qed.

Lemma examples_index_first w st :
  index_before_inserts ImportExamples.index_keys
    (trace_of (ImportExamples.importData w st)).
Proof.
  apply index_first_sound.
  pose proof (examples_import_lines_targets w) as Hlines.
  unfold ImportExamples.importData. eff.
  split_outcomes; cbn [index_first]; try exact I;
    (split; [reflexivity|]);
    repeat match goal with
           | |- Forall _ [] => constructor
           | |- Forall _ (_ :: _) => constructor; [exact I |]
           | |- Forall _ (_ ++ _) => apply Forall_app; split
           | H : ImportExamples.import_lines w ?db ?l ?s = (?tr, _, _)
             |- Forall _ ?tr =>
               let Ht := fresh in
               pose proof (Hlines db l s) as Ht; rewrite H in Ht; exact Ht
           end.
Qed.

(** *** data-import/import-to-mongodb.js, when every insertion succeeds *)

Section ScriptRuns.

Import ImportScript.

Variables (w : World) (db : Db).
Hypothesis Hins : inserts_succeed w db COLLECTION_NAME.

Lemma body_blank line st :
  is_blank line = true ->
  loop_body w db line st = ([], incr_lineCount st, Normal tt).
Proof. intros H. unfold loop_body. rewrite H. destruct st. eff. reflexivity. Qed.

Lemma body_document line doc st :
  is_blank line = false ->
  stamped_document w line = Some doc ->
  loop_body w db line st =
  let st1 := push doc (incr_lineCount st) in
  if (BATCH_SIZE <=? List.length (batch st1))%nat
  then (InsertMany db COLLECTION_NAME (batch st1)
          :: progress_log (importedCount st1 + List.length (batch st1)),
        clear_batch (add_imported st1), Normal tt)
  else ([], st1, Normal tt).
Proof.
  intros Hb Hd. unfold loop_body. rewrite Hb.
  unfold stamped_document, parsed_value in Hd. rewrite Hb in Hd.
  destruct (json_parse w line) as [v|e]; [|discriminate].
  destruct (set v "importedAt" (date_new w)) as [d|e] eqn:Es; [|discriminate].
  injection Hd as ->.
  destruct st as [lines imported errors current].
  eff. rewrite Es. eff.
  destruct (BATCH_SIZE <=? List.length (current ++ [doc]))%nat eqn:E.
  - eff. rewrite Hins. eff. unfold progress_log.
    destruct ((imported + List.length (current ++ [doc])) mod 5000 =? 0)%nat;
      reflexivity.
  - reflexivity.
Qed.

Lemma body_error line st :
  is_blank line = false ->
  stamped_document w line = None ->
  exists message,
  loop_body w db line st =
  let st1 := incr_errorCount (incr_lineCount st) in
  (error_log (lineCount st1) (errorCount st1) message, st1,
   if (100 <? errorCount st1)%nat then Broken else Normal tt).
Proof.
  intros Hb Hd. unfold loop_body. rewrite Hb.
  unfold stamped_document, parsed_value in Hd. rewrite Hb in Hd.
  destruct st as [lines imported errors current].
  destruct (json_parse w line) as [v|e].
  - destruct (set v "importedAt" (date_new w)) as [d|e] eqn:Es; [discriminate|].
    exists (exn_message e). eff. rewrite Es. eff. unfold error_log. eff.
    destruct (100 <? S errors)%nat; reflexivity.
  - exists (exn_message e). eff. unfold error_log. eff.
    destruct (100 <? S errors)%nat; reflexivity.
Qed.

(** The loop, from any values of the local variables: it inserts the full
    batches of the documents of the lines it reads, keeps the batch left
    over, and counts the lines, the errors and the documents inserted. *)
Lemma loop_run lines : forall st,
  let read := lines_read w (errorCount st) lines in
  let filled := fill BATCH_SIZE (collect (stamped_document w) read) (batch st) in
  let run := for_of lines (loop_body w db) st in
  completion_of run = Normal tt /\
  inserted (trace_of run) = fst filled /\
  batch (state_of run) = snd filled /\
  lineCount (state_of run) = lineCount st + List.length read /\
  errorCount (state_of run)
  = errorCount st + List.length (filter (is_error_line w) read) /\
  importedCount (state_of run)
  = importedCount st + List.length (concat (fst filled)).
Proof.
  induction lines as [|line lines IH]; intros st.
  - cbn. repeat split; try reflexivity; lia.
  - cbn [for_of lines_read].
    destruct (is_blank line) eqn:Hb.
    + assert (He : is_error_line w line = false)
        by (unfold is_error_line; now rewrite Hb).
      assert (Hd : stamped_document w line = None)
        by (unfold stamped_document, parsed_value; now rewrite Hb).
      rewrite He, (body_blank line st Hb).
      specialize (IH (incr_lineCount st)).
      destruct (for_of lines (loop_body w db) (incr_lineCount st)) as [[tr st'] c].
      cbn [collect filter]. rewrite Hd, He.
      cbn in IH |- *.
      destruct IH as (Hc & Hi & Hbt & Hl & He' & Him).
      repeat split; try assumption; lia.
    + destruct (stamped_document w line) as [doc|] eqn:Hd.
      * assert (He : is_error_line w line = false)
          by (unfold is_error_line; now rewrite Hb, Hd).
        rewrite He, (body_document line doc st Hb Hd).
        cbn [collect filter]. rewrite Hd, He.
        cbn zeta. cbn [fill].
        change (batch (push doc (incr_lineCount st))) with (batch st ++ [doc])%list.
        destruct (BATCH_SIZE <=? List.length (batch st ++ [doc]))%nat eqn:E.
        -- specialize (IH (clear_batch (add_imported (push doc (incr_lineCount st))))).
           destruct (for_of lines (loop_body w db) _) as [[tr st'] c].
           cbn in IH.
           destruct (fill BATCH_SIZE (collect (stamped_document w)
                       (lines_read w (errorCount st) lines)) []) as [full leftover].
           cbn in IH |- *. rewrite inserted_app, inserted_progress_log.
           destruct IH as (Hc & Hi & Hbt & Hl & He' & Him).
           cbn. rewrite length_app.
           repeat split; try assumption; try lia.
           now rewrite Hi.
        -- specialize (IH (push doc (incr_lineCount st))).
           destruct (for_of lines (loop_body w db) _) as [[tr st'] c].
           cbn in IH |- *.
           destruct IH as (Hc & Hi & Hbt & Hl & He' & Him).
           repeat split; try assumption; lia.
      * assert (He : is_error_line w line = true)
          by (unfold is_error_line; now rewrite Hb, Hd).
        rewrite He.
        destruct (body_error line st Hb Hd) as [message ->].
        cbn zeta.
        change (errorCount (incr_errorCount (incr_lineCount st)))
          with (S (errorCount st)).
        destruct (100 <? S (errorCount st))%nat eqn:E.
        -- cbn [collect filter]. rewrite Hd, He.
           cbn [trace_of state_of completion_of fst snd].
           rewrite inserted_error_log. cbn.
           repeat split; try reflexivity; lia.
        -- specialize (IH (incr_errorCount (incr_lineCount st))).
           destruct (for_of lines (loop_body w db) _) as [[tr st'] c].
           cbn [collect filter]. rewrite Hd, He.
           cbn [trace_of state_of completion_of fst snd] in IH |- *.
           rewrite inserted_app, inserted_error_log.
           cbn in IH |- *.
           destruct IH as (Hc & Hi & Hbt & Hl & He' & Him).
           repeat split; try assumption; lia.
Qed.

(** The loop and the statements after it. *)
Lemma import_lines_run lines :
  let read := lines_read w 0 lines in
  let docs := collect (stamped_document w) read in
  let run := import_lines w db lines script_start in
  completion_of run = Normal tt /\
  inserted (trace_of run) = batches BATCH_SIZE docs /\
  importedCount (state_of run) = List.length docs /\
  lineCount (state_of run) = List.length read /\
  errorCount (state_of run) = List.length (filter (is_error_line w) read) /\
  In (Console LogLevel ("- Documents imported: " ++ of_nat (List.length docs)))
     (trace_of run).
Proof.
  cbn zeta. unfold import_lines, batches.
  destruct (loop_run lines script_start) as (Hc & Hi & Hbt & Hl & He & Him).
  pose proof (fill_concat BATCH_SIZE
                (collect (stamped_document w) (lines_read w 0 lines)) []) as Hall.
  rewrite run_bind.
  destruct (for_of lines (loop_body w db) script_start) as [[tr st'] c].
  cbn [trace_of state_of completion_of fst snd] in Hc, Hi, Hbt, Hl, He, Him.
  subst c. cbn [script_start batch lineCount errorCount importedCount] in *.
  destruct (fill BATCH_SIZE (collect (stamped_document w) (lines_read w 0 lines)) [])
    as [full leftover].
  cbn [fst snd app] in Hi, Hbt, Him, Hall.
  destruct st' as [n imported errors current].
  cbn [batch lineCount errorCount importedCount] in *. subst.
  rewrite <- Hall, length_app.
  destruct leftover as [|d leftover]; eff.
  - cbn. rewrite inserted_app. cbn. rewrite !app_nil_r.
    repeat split; try reflexivity; try lia.
    apply in_or_app. right. rewrite Nat.add_0_r. cbn. auto 6.
  - rewrite Hins. eff. rewrite !inserted_app. cbn.
    repeat split; try reflexivity.
    apply in_or_app. right. cbn. auto 8.
Qed.

End ScriptRuns.

(** *** The import script of part_000, when every insertion succeeds *)

Section ExamplesRuns.

Import ImportExamples.

Variables (w : World) (db : Db).
Hypothesis Hins : inserts_succeed w db collection.

Lemma examples_body line st :
  loop_body w db line st =
  match parsed_value w line with
  | Some doc =>
      let st1 := incr_count (push doc st) in
      if (batchSize <=? List.length (batch st1))%nat
      then ([InsertMany db collection (batch st1);
             Console LogLevel ("Imported " ++ of_nat (count st1) ++ " documents...")],
            clear_batch st1, Normal tt)
      else ([], st1, Normal tt)
  | None =>
      (match json_parse w line with
       | Throw err =>
           if is_blank line then []
           else [Console ErrorLevel ("Error parsing line: " ++ show_exn err)]
       | Ok _ => []
       end, st, Normal tt)
  end.
Proof.
  unfold loop_body, parsed_value. destruct st as [n current].
  destruct (is_blank line); eff; [now destruct (json_parse w line)|].
  destruct (json_parse w line) as [doc|err]; eff; [|reflexivity].
  destruct (batchSize <=? List.length (current ++ [doc]))%nat; eff; [|reflexivity].
  rewrite Hins. reflexivity.
Qed.

Lemma examples_loop lines : forall st,
  let filled := fill batchSize (collect (parsed_value w) lines) (batch st) in
  let run := for_of lines (loop_body w db) st in
  completion_of run = Normal tt /\
  inserted (trace_of run) = fst filled /\
  batch (state_of run) = snd filled /\
  count (state_of run) = count st + List.length (collect (parsed_value w) lines).
Proof.
  induction lines as [|line lines IH]; intros st.
  - cbn. repeat split; try reflexivity; lia.
  - cbn [for_of collect]. rewrite examples_body.
    destruct (parsed_value w line) as [doc|] eqn:Hd.
    + cbn zeta. cbn [fill].
      change (batch (incr_count (push doc st))) with (batch st ++ [doc])%list.
      destruct (batchSize <=? List.length (batch st ++ [doc]))%nat.
      * specialize (IH (clear_batch (incr_count (push doc st)))).
        destruct (for_of lines (loop_body w db) _) as [[tr st'] c].
        cbn in IH.
        destruct (fill batchSize (collect (parsed_value w) lines) [])
          as [full leftover].
        cbn in IH |- *.
        destruct IH as (Hc & Hi & Hbt & Hn).
        repeat split; try assumption; try lia. now rewrite Hi.
      * specialize (IH (incr_count (push doc st))).
        destruct (for_of lines (loop_body w db) _) as [[tr st'] c].
        cbn in IH |- *.
        destruct IH as (Hc & Hi & Hbt & Hn).
        repeat split; try assumption; lia.
    + specialize (IH st).
      destruct (for_of lines (loop_body w db) st) as [[tr st'] c].
      cbn [trace_of state_of completion_of fst snd] in IH |- *.
      rewrite inserted_app.
      replace (inserted _) with (@nil (list JsValue))
        by (destruct (json_parse w line);
            [reflexivity | now destruct (is_blank line)]).
      cbn. exact IH.
Qed.

Lemma examples_import_lines lines :
  let docs := collect (parsed_value w) lines in
  let run := import_lines w db lines examples_start in
  completion_of run = Normal tt /\
  inserted (trace_of run) = batches batchSize docs /\
  count (state_of run) = List.length docs /\
  In (Console LogLevel ("Import completed. Total documents imported: "
                        ++ of_nat (List.length docs))) (trace_of run).
Proof.
  cbn zeta. unfold import_lines, batches.
  destruct (examples_loop lines examples_start) as (Hc & Hi & Hbt & Hn).
  rewrite run_bind.
  destruct (for_of lines (loop_body w db) examples_start) as [[tr st'] c].
  cbn [trace_of state_of completion_of fst snd] in Hc, Hi, Hbt, Hn. subst c.
  cbn [examples_start batch count] in Hi, Hbt, Hn.
  destruct (fill batchSize (collect (parsed_value w) lines) []) as [full leftover].
  cbn [fst snd] in Hi, Hbt. destruct st' as [n current]. cbn in Hbt, Hn. subst.
  destruct leftover as [|d leftover]; eff.
  - cbn. rewrite inserted_app. cbn. rewrite app_nil_r.
    repeat split; try reflexivity. apply in_or_app. right. now left.
  - rewrite Hins. eff. rewrite !inserted_app. cbn.
    repeat split; try reflexivity.
    apply in_or_app. right. right. now left.
Qed.

End ExamplesRuns.

(** *** The scripts as a whole *)

(** The insertions of [importData] are those of its loop and of the
    statements after it. *)
Lemma script_inserts_are_import_lines w path st :
  inserted (trace_of (ImportScript.importData w path st)) = [] \/
  exists lines,
    file_lines w path = Some lines /\
    inserted (trace_of (ImportScript.importData w path st))
    = inserted (trace_of (ImportScript.import_lines w (script_db w) lines script_start)).
Proof.
  unfold ImportScript.importData, script_db, script_start. eff.
  split_outcomes; cbn [inserted]; auto;
    right; eexists; (split; [reflexivity|]);
    match goal with
    | H : ImportScript.import_lines _ _ _ _ = _ |- _ => rewrite H
    end;
    cbn [trace_of fst]; rewrite ?inserted_app; cbn [inserted];
    rewrite ?app_nil_r; reflexivity.
Qed.

Lemma examples_inserts_are_import_lines w st :
  inserted (trace_of (ImportExamples.importData w st)) = [] \/
  exists path lines,
    file_lines w path = Some lines /\
    inserted (trace_of (ImportExamples.importData w st))
    = inserted (trace_of (ImportExamples.import_lines w (examples_db w) lines
                            examples_start)).
Proof.
  unfold ImportExamples.importData, examples_db, examples_start. eff.
  split_outcomes; cbn [inserted]; auto;
    right; eexists; eexists; (split; [eassumption|]);
    match goal with
    | H : ImportExamples.import_lines _ _ _ _ = _ |- _ => rewrite H
    end;
    cbn [trace_of fst]; rewrite ?inserted_app; cbn [inserted];
    rewrite ?app_nil_r; reflexivity.
Qed.

(** C5, as amended.  When every [insertMany] succeeds, both import scripts
    insert, in batches of 1000 with the batch left over inserted after the
    loop, each document once and in the order of the lines, and report
    their number.  For the script of part_000 the documents are the values
    of the lines that are not blank and that [JSON.parse] accepts.  For
    import-to-mongodb.js they are those values other than [null], each
    with its [importedAt] member, of the lines read before the script
    gives up; a line that is blank is neither a document nor an error.
    In every world both scripts create the text index on [input] and
    [output] before any insertion, and insert nothing but what their loop
    and the statements after it insert. *)
Theorem import_inserts_each_document_once (w : World) (db : Db) (lines : list string) :
  inserts_succeed w db (JsStr "examples") ->
  (let read := lines_read w 0 lines in
   let docs := collect (stamped_document w) read in
   let run := ImportScript.import_lines w db lines script_start in
   inserted (trace_of run) = batches 1000 docs /\
   concat (inserted (trace_of run)) = docs /\
   ImportScript.importedCount (state_of run) = List.length docs /\
   ImportScript.errorCount (state_of run)
   = List.length (filter (is_error_line w) read) /\
   In (Console LogLevel ("- Documents imported: " ++ JsString.of_nat (List.length docs)))
      (trace_of run))
  /\
  (let docs := collect (parsed_value w) lines in
   let run := ImportExamples.import_lines w db lines examples_start in
   inserted (trace_of run) = batches 1000 docs /\
   concat (inserted (trace_of run)) = docs /\
   ImportExamples.count (state_of run) = List.length docs /\
   In (Console LogLevel ("Import completed. Total documents imported: "
                         ++ JsString.of_nat (List.length docs)))
      (trace_of run))
  /\
  (forall path st,
      index_before_inserts ImportScript.index_keys
        (trace_of (ImportScript.importData w path st)) /\
      (inserted (trace_of (ImportScript.importData w path st)) = [] \/
       exists lines',
         file_lines w path = Some lines' /\
         inserted (trace_of (ImportScript.importData w path st))
         = inserted (trace_of (ImportScript.import_lines w (script_db w) lines'
                                 script_start))))
  /\
  (forall st,
      index_before_inserts ImportExamples.index_keys
        (trace_of (ImportExamples.importData w st)) /\
      (inserted (trace_of (ImportExamples.importData w st)) = [] \/
       exists path lines',
         file_lines w path = Some lines' /\
         inserted (trace_of (ImportExamples.importData w st))
         = inserted (trace_of (ImportExamples.import_lines w (examples_db w) lines'
                                 examples_start)))).
Proof.
  intros Hins. repeat split.
  - now destruct (import_lines_run w db Hins lines) as (_ & H & _).
  - destruct (import_lines_run w db Hins lines) as (_ & H & _).
    cbn zeta in H. rewrite H. apply batches_concat.
  - now destruct (import_lines_run w db Hins lines) as (_ & _ & H & _).
  - now destruct (import_lines_run w db Hins lines) as (_ & _ & _ & _ & H & _).
  - now destruct (import_lines_run w db Hins lines) as (_ & _ & _ & _ & _ & H).
  - now destruct (examples_import_lines w db Hins lines) as (_ & H & _).
  - destruct (examples_import_lines w db Hins lines) as (_ & H & _).
    cbn zeta in H. rewrite H. apply batches_concat.
  - now destruct (examples_import_lines w db Hins lines) as (_ & _ & H & _).
  - now destruct (examples_import_lines w db Hins lines) as (_ & _ & _ & H).
  - apply script_index_first.
  - apply script_inserts_are_import_lines.
  - apply examples_index_first.
  - apply examples_inserts_are_import_lines.
Qed.

(** The theorem applies to the sample world and its file of five lines:
    two documents, a blank line, a [null] and a line that is not JSON. *)
Lemma import_inserts_each_document_once_witness :
  inserts_succeed Sample.world Sample.kag_db (JsStr "examples") /\
  inserted (trace_of (ImportScript.import_lines Sample.world Sample.kag_db
                        ["{}"; ""; "null"; "{"; "{}"] script_start))
  = batches 1000
      (collect (stamped_document Sample.world)
         (lines_read Sample.world 0 ["{}"; ""; "null"; "{"; "{}"])).
Proof.
  assert (Hins : inserts_succeed Sample.world Sample.kag_db (JsStr "examples"))
    by (intros docs; reflexivity).
  split; [exact Hins|].
  exact (proj1 (proj1 (import_inserts_each_document_once
                         Sample.world Sample.kag_db
                         ["{}"; ""; "null"; "{"; "{}"] Hins))).
Defined.

(** C5, as the specification words it, fails on import-to-mongodb.js: a
    line holding [null] is accepted by [JSON.parse], yet setting its
    [importedAt] member throws, so the line is counted as an error and
    is not inserted. *)
Lemma null_line_is_not_imported :
  inserts_succeed Sample.world Sample.kag_db (JsStr "examples") /\
  json_parse Sample.world "null" = Ok JsNull /\
  ~ every_parsed_line_is_imported Sample.world Sample.kag_db ["null"].
Proof.
  split; [intros docs; reflexivity|].
  split; [reflexivity|].
  intros [Hinserted _]. vm_compute in Hinserted. discriminate.
Qed.

(** C10.  Once more than 100 of the lines read are not JSON,
    import-to-mongodb.js has printed that it aborts and reads no further
    line: its run on those lines followed by any others is its run on those
    lines alone.  And also then, when every [insertMany] succeeds, each
    document of a line read before the abort is inserted, the batch left
    over being inserted after the loop. *)
Theorem import_aborts_and_flushes (w : World) (db : Db) (read rest : list string) :
  100 < List.length (filter (fails_to_parse w) read) ->
  let run := ImportScript.import_lines w db (read ++ rest) script_start in
  run = ImportScript.import_lines w db read script_start /\
  In (Console ErrorLevel "Too many errors, aborting import") (trace_of run) /\
  ImportScript.lineCount (state_of run) <= List.length read /\
  (inserts_succeed w db ImportScript.COLLECTION_NAME ->
   concat (inserted (trace_of run))
   = collect (stamped_document w) (lines_read w 0 (read ++ rest)) /\
   ImportScript.importedCount (state_of run)
   = List.length (collect (stamped_document w) (lines_read w 0 (read ++ rest)))).
Proof.
  intros Hmany run.
  destruct (script_abort w db read rest script_start) as (Hsame & Hlog & Hlines);
    [cbn; lia | cbn; lia |].
  cbn zeta in Hsame, Hlog, Hlines.
  assert (Hrun : run = ImportScript.import_lines w db read script_start).
  { unfold run, ImportScript.import_lines. now rewrite !run_bind, Hsame. }
  split; [exact Hrun|].
  split; [|split].
  - rewrite Hrun. unfold ImportScript.import_lines. rewrite run_bind.
    destruct (for_of read (ImportScript.loop_body w db) script_start)
      as [[tr st'] [[]|e| |]]; cbn [trace_of fst] in *; try exact Hlog.
    apply in_or_app. now left.
  - rewrite Hrun. unfold ImportScript.import_lines. rewrite run_bind.
    destruct (for_of read (ImportScript.loop_body w db) script_start)
      as [[tr st'] [[]|e| |]]; cbn [state_of fst snd script_start
                                     ImportScript.lineCount] in *;
      try exact Hlines.
    destruct st' as [n imported errors current].
    cbn [ImportScript.lineCount] in Hlines.
    eff. split_outcomes; cbn; exact Hlines.
  - intros Hins.
    destruct (import_lines_run w db Hins (read ++ rest)) as (_ & Hi & Hn & _).
    cbn zeta in Hi, Hn. fold run in Hi, Hn.
    rewrite Hi, Hn. split; [apply batches_concat | reflexivity].
Qed.

(** The theorem applies to the sample world and a file of 101 lines that
    are not JSON followed by a document. *)
Lemma import_aborts_and_flushes_witness :
  100 < List.length (filter (fails_to_parse Sample.world) (repeat "{" 101)) /\
  ImportScript.import_lines Sample.world Sample.kag_db
    (repeat "{" 101 ++ ["{}"]) script_start
  = ImportScript.import_lines Sample.world Sample.kag_db (repeat "{" 101) script_start.
Proof.
  assert (Hmany : 100 < List.length (filter (fails_to_parse Sample.world)
                                            (repeat "{" 101)))
    by (vm_compute; lia).
  split; [exact Hmany|].
  exact (proj1 (import_aborts_and_flushes Sample.world Sample.kag_db
                  (repeat "{" 101) ["{}"] Hmany)).
Defined.

End ImportFacts.

(** ** api/rag.js *)

Module RagFacts.

Import JsString JsStringFacts RagSpec EffectsFacts Rag.

Lemma collect_app {A B} (f : A -> option B) (a b : list A) :
  collect f (a ++ b) = (collect f a ++ collect f b)%list.
Proof.
  induction a as [|x a IH]; simpl; [reflexivity|].
  destruct (f x); simpl; now rewrite IH.
Qed.


Ltac pick := repeat (first [left; reflexivity | right]).

Lemma step1_spec w uri coll st :
  exists tr st' db,
    step1_connect w uri coll st = (tr, st', Normal db) /\
    outputs tr = [] /\ aggregates tr = [] /\ In (steps tr) db_steps.
Proof.
  unfold step1_connect, connectToDatabase. destruct st as [[db|] client made]; eff.
  all: split_outcomes.
  all: do 3 eexists; (split; [reflexivity|]); repeat split; try reflexivity.
  all: vm_compute; pick.
Qed.

Lemma embedding_request_state w key model query st :
  embedding_request w key model query st
  = (trace_of (embedding_request w key model query initial_state), st,
     completion_of (embedding_request w key model query initial_state)).
Proof.
  unfold embedding_request. eff. split_outcomes; reflexivity.
Qed.

Lemma step2_spec w key model query st :
  exists tr,
    match completion_of (embedding_request w key model query initial_state) with
    | Normal queryEmbedding =>
        step2_embedding w key model query st = (tr, st, Normal queryEmbedding) /\
        outputs tr = [] /\ steps tr = [EmbeddingCall; EmbeddingObtained]
    | Thrown embeddingError =>
        step2_embedding w key model query st = (tr, st, Returned) /\
        outputs tr = [Status 200; Json (fallback_body query embeddingError)] /\
        steps tr = [EmbeddingCall; ResponseWritten]
    | _ => False
    end /\ aggregates tr = [].
Proof.
  unfold step2_embedding, try_catch. rewrite embedding_request_state.
  unfold embedding_request. eff.
  split_outcomes; eexists; (split; [repeat split; reflexivity | idtac]); reflexivity.
Qed.

Lemma step3_spec w db coll emb st :
  exists tr docs fb,
    step3_search w db coll emb st = (tr, st, Normal (docs, fb)) /\
    outputs tr = [] /\
    match db with
    | Some d =>
        steps tr = [VectorSearch] /\
        aggregates tr = [Aggregate d coll (search_pipeline emb)] /\
        ((coll_aggregate w d coll (search_pipeline emb) = Ok docs /\ fb = false) \/
         (docs = [] /\ fb = true))
    | None => steps tr = [] /\ aggregates tr = [] /\ docs = [] /\ fb = true
    end.
Proof.
  unfold step3_search. destruct db as [d|]; eff.
  - destruct (coll_aggregate w d coll (search_pipeline emb)) as [docs|e] eqn:E; eff;
      do 3 eexists; (split; [reflexivity|]); repeat split; auto.
  - do 3 eexists. repeat split.
Qed.

Lemma step4_spec docs (st : ModuleState) :
  exists tr ctx,
    step4_context docs st = (tr, st, Normal ctx) /\
    outputs tr = [] /\ aggregates tr = [] /\ steps tr = [PromptAssembled].
Proof.
  destruct docs; do 2 eexists; repeat split.
Qed.


Lemma step5_spec w key query docs fb ctx st :
  exists tr,
    ((exists answer sources,
         step5_llm w key query docs fb ctx st = (tr, st, Normal tt) /\
         map_result source_entry docs = Ok sources /\
         outputs tr = [Status 200; Json (answer_body answer sources fb)] /\
         steps tr = [LlmCall; LlmCompleted; ResponseWritten])
     \/
     (exists message,
         step5_llm w key query docs fb ctx st = (tr, st, Returned) /\
         In (Console ErrorLevel ("LLM API error: " ++ message)) tr /\
         ((outputs tr = [Status 500; Json (llm_error_body message)] /\
           steps tr = [LlmCall; ResponseWritten])
          \/
          (outputs tr = [Status 200; Status 500; Json (llm_error_body message)] /\
           steps tr = [LlmCall; LlmCompleted; ResponseWritten]))))
    /\ aggregates tr = [].
Proof.
  unfold step5_llm, errorResponse. eff.
  split_outcomes; eexists;
    (split;
     [ first [ left; do 2 eexists; repeat split; reflexivity
             | right; eexists; (split; [reflexivity|]);
               (split; [cbn; auto 20|]);
               first [left; split; reflexivity | right; split; reflexivity] ]
     | idtac ]); reflexivity.
Qed.


Lemma get_object v k q :
  get v k = Ok q -> truthy q = true -> k <> "length" ->
  exists fields, v = JsObj fields /\ q = lookup k fields.
Proof.
  destruct v; cbn; intros [= <-] Ht Hk; try discriminate.
  - destruct (k =? "length") eqn:E; [apply String.eqb_eq in E; contradiction | discriminate].
  - destruct (k =? "length") eqn:E; [apply String.eqb_eq in E; contradiction | discriminate].
  - now exists fields.
Qed.

Lemma not_rejected w req :
  rejection w req = None -> exists fields, accepted w req fields.
Proof.
  unfold rejection, accepted.
  destruct (method req =? "OPTIONS") eqn:Eo; [discriminate|].
  destruct (method req =? "POST") eqn:Ep; [|discriminate]. cbn [negb].
  destruct (truthy (env_value w "FIREWORKS_API_KEY")); [|discriminate].
  destruct (truthy (env_value w "MONGODB_URI")); [|discriminate]. cbn.
  destruct (parse_body w req) as [rb|e]; [|discriminate].
  destruct (get rb "query") as [q|e] eqn:Eq; [|discriminate].
  destruct (truthy q) eqn:Et; [|discriminate]. intros _.
  destruct (get_object rb "query" q Eq Et) as (fields & -> & ->); [discriminate|].
  exists fields. apply String.eqb_eq in Ep. auto.
Qed.

Lemma rejected_run w req st out :
  rejection w req = Some out ->
  exists tr,
    handler w req st = (tr, st, Normal tt) /\
    outputs tr = out /\ steps tr = [ResponseWritten] /\ aggregates tr = [].
Proof.
  unfold rejection, handler, handler_body, errorResponse, error_body.
  destruct (method req =? "OPTIONS") eqn:Eo.
  { intros [= <-]. eff. eexists. repeat split. }
  destruct (method req =? "POST") eqn:Ep; cbn [negb].
  2:{ intros [= <-]. eff. eexists. repeat split. }
  destruct (truthy (env_value w "FIREWORKS_API_KEY")) eqn:Ek; cbn [negb orb].
  2:{ intros [= <-]. eff. eexists. repeat split. }
  destruct (truthy (env_value w "MONGODB_URI")) eqn:Eu; cbn [negb orb].
  2:{ intros [= <-]. eff. eexists. repeat split. }
  destruct (parse_body w req) as [rb|e] eqn:Eb.
  2:{ intros [= <-]. eff.
      destruct (exn_message e =? ""); eff; eexists; repeat split. }
  destruct (get rb "query") as [q|e] eqn:Eq.
  2:{ intros [= <-]. eff. rewrite Eq. eff.
      destruct (exn_message e =? ""); eff; eexists; repeat split. }
  destruct (truthy q) eqn:Et; [discriminate|].
  intros [= <-]. eff. rewrite Eq. eff.
  assert (Hget : forall k, exists v, get rb k = Ok v).
  { intros k. destruct rb; cbn in Eq |- *; try discriminate; eauto. }
  destruct (Hget "collectionName") as [cn ->].
  destruct (Hget "modelName") as [mn ->]. eff. rewrite Et. eff.
  eexists. repeat split.
Qed.

Lemma outputs_app a b : outputs (a ++ b) = (outputs a ++ outputs b)%list.
Proof. apply filter_app. Qed.
Lemma aggregates_app a b : aggregates (a ++ b) = (aggregates a ++ aggregates b)%list.
Proof. apply filter_app. Qed.
Lemma steps_app a b : steps (a ++ b) = (steps a ++ steps b)%list.
Proof. apply collect_app. Qed.
Lemma outputs_cons e tr : outputs (e :: tr) = (outputs [e] ++ outputs tr)%list.
Proof. exact (outputs_app [e] tr). Qed.
Lemma aggregates_cons e tr : aggregates (e :: tr) = (aggregates [e] ++ aggregates tr)%list.
Proof. exact (aggregates_app [e] tr). Qed.
Lemma steps_cons e tr : steps (e :: tr) = (steps [e] ++ steps tr)%list.
Proof. exact (steps_app [e] tr). Qed.


Lemma accepted_run w req st fields :
  accepted w req fields ->
  let key := env_value w "FIREWORKS_API_KEY" in
  let query := lookup "query" fields in
  let coll := collection_of w fields in
  exists tr st' dbs,
    handler w req st = (tr, st', Normal tt) /\
    In dbs db_steps /\
    match embedding_outcome w fields with
    | Thrown embeddingError =>
        outputs tr = [Status 200; Json (fallback_body query embeddingError)] /\
        steps tr = (dbs ++ [EmbeddingCall; ResponseWritten])%list /\
        aggregates tr = []
    | Normal queryEmbedding =>
        exists searched docs fb,
          ((searched = [] /\ aggregates tr = [] /\ docs = [] /\ fb = true) \/
           (exists db,
               searched = [VectorSearch] /\
               aggregates tr = [Aggregate db coll (search_pipeline queryEmbedding)] /\
               ((coll_aggregate w db coll (search_pipeline queryEmbedding) = Ok docs
                 /\ fb = false) \/ (docs = [] /\ fb = true)))) /\
          ((exists answer sources,
               map_result source_entry docs = Ok sources /\
               outputs tr = [Status 200; Json (answer_body answer sources fb)] /\
               steps tr = (dbs ++ [EmbeddingCall; EmbeddingObtained] ++ searched
                           ++ [PromptAssembled; LlmCall; LlmCompleted; ResponseWritten])%list)
           \/
           (exists message,
               In (Console ErrorLevel ("LLM API error: " ++ message)) tr /\
               ((outputs tr = [Status 500; Json (llm_error_body message)] /\
                 steps tr = (dbs ++ [EmbeddingCall; EmbeddingObtained] ++ searched
                             ++ [PromptAssembled; LlmCall; ResponseWritten])%list)
                \/
                (outputs tr = [Status 200; Status 500; Json (llm_error_body message)] /\
                 steps tr = (dbs ++ [EmbeddingCall; EmbeddingObtained] ++ searched
                             ++ [PromptAssembled; LlmCall; LlmCompleted;
                                 ResponseWritten])%list))))
    | _ => False
    end.
Proof.
  intros (Hm & Hk & Hu & Hb & Hq). cbn zeta.
  unfold handler, handler_body.
  rewrite Hm. change ("POST" =? "OPTIONS") with false.
  change ("POST" =? "POST") with true.
  rewrite Hk, Hu, Hb. eff. cbn [get]. eff. rewrite Hq. eff.
  fold (collection_of w fields). fold (model_of fields).
  destruct (step1_spec w (env_value w "MONGODB_URI") (collection_of w fields) st)
    as (tr1 & st1 & db & -> & O1 & A1 & S1).
  destruct (step2_spec w (env_value w "FIREWORKS_API_KEY") (model_of fields)
              (lookup "query" fields) st1) as (tr2 & H2 & A2).
  change (completion_of (embedding_request w _ _ _ initial_state))
    with (embedding_outcome w fields) in H2.
  destruct (embedding_outcome w fields) as [emb|e| |]; try contradiction.
  2:{ destruct H2 as (-> & O2 & S2). eff.
      do 3 eexists. split; [reflexivity|]. split; [exact S1|].
      rewrite outputs_cons, steps_cons, aggregates_cons,
        !outputs_app, !steps_app, !aggregates_app, O1, A1, O2, S2, A2.
      repeat split. }
  destruct H2 as (-> & O2 & S2).
  destruct (step3_spec w db (collection_of w fields) emb st1)
    as (tr3 & docs & fb & -> & O3 & H3).
  destruct (step4_spec docs st1) as (tr4 & ctx & E4 & O4 & A4 & S4).
  destruct (step5_spec w (env_value w "FIREWORKS_API_KEY") (lookup "query" fields)
              docs fb ctx st1) as (tr5 & H5 & A5).
  eff. rewrite E4.
  assert (Hsearch :
            steps tr3 = searched_steps db /\
            ((searched_steps db = [] /\ aggregates tr3 = [] /\ docs = [] /\ fb = true) \/
             (exists d,
                 searched_steps db = [VectorSearch] /\
                 aggregates tr3 = [Aggregate d (collection_of w fields)
                                     (search_pipeline emb)] /\
                 ((coll_aggregate w d (collection_of w fields) (search_pipeline emb)
                   = Ok docs /\ fb = false) \/ (docs = [] /\ fb = true))))).
  { destruct db as [d|]; cbn [searched_steps].
    - destruct H3 as (S3 & A3 & H3). split; [exact S3|]. right. now exists d.
    - destruct H3 as (S3 & A3 & -> & ->). split; [exact S3|]. now left. }
  destruct Hsearch as (S3 & Hsearch).
  destruct H5 as [(answer & sources & -> & Hsrc & O5 & S5)
                 | (message & -> & Hlog & H5)]; eff;
    do 3 eexists; (split; [reflexivity|]); (split; [exact S1|]);
    exists (searched_steps db), docs, fb;
    rewrite outputs_cons, steps_cons, aggregates_cons,
      !outputs_app, !steps_app, !aggregates_app, O1, A1, O2, S2, A2, O3, S3, O4, S4, A4, A5.
  - split.
    + destruct Hsearch as [(-> & -> & -> & ->) | (d & -> & -> & Hd)]; [now left|].
      right. now exists d.
    + left. exists answer, sources. rewrite O5, S5. repeat split; assumption.
  - split.
    + destruct Hsearch as [(-> & -> & -> & ->) | (d & -> & -> & Hd)]; [now left|].
      right. now exists d.
    + right. exists message. split.
      * right. do 4 (apply in_or_app; right). exact Hlog.
      * destruct H5 as [(O5 & S5) | (O5 & S5)]; rewrite O5, S5; [left | right];
          repeat split.
Qed.

(** The steps every run shows are one of [pipeline_runs]. *)
Lemma rag_steps w req st :
  In (steps (trace_of (handler w req st))) pipeline_runs.
Proof.
  destruct (rejection w req) as [out|] eqn:Hr.
  - destruct (rejected_run w req st out Hr) as (tr & -> & _ & S & _).
    cbn [trace_of fst]. rewrite S. now left.
  - destruct (not_rejected w req Hr) as [fields Ha].
    destruct (accepted_run w req st fields Ha) as (tr & st' & dbs & -> & Hdbs & H).
    cbn [trace_of fst]. right.
    unfold pipeline_runs. apply in_flat_map. exists dbs. split; [exact Hdbs|].
    destruct (embedding_outcome w fields) as [emb|e| |]; try contradiction.
    + destruct H as (searched & docs & fb & Hs & H).
      right. apply in_flat_map. exists searched. split.
      * destruct Hs as [(-> & _) | (d & -> & _)]; cbn; auto.
      * destruct H as [(answer & sources & _ & _ & S)
                      | (message & _ & [(_ & S) | (_ & S)])]; rewrite S; cbn; auto.
    + destruct H as (_ & S & _). rewrite S. now left.
Qed.

(** What holds of all [pipeline_runs], by enumeration. *)
Lemma pipeline_runs_checked (check : list step -> bool) :
  forallb check pipeline_runs = true ->
  forall w req st, check (steps (trace_of (handler w req st))) = true.
Proof.
  intros Hall w req st. rewrite forallb_forall in Hall. apply Hall, rag_steps.
Qed.

Lemma in_outputs e tr : is_output e = true -> In e tr -> In e (outputs tr).
Proof. intros He Hin. apply filter_In. now split. Qed.

Lemma map_result_sources docs sources :
  map_result source_entry docs = Ok sources -> Forall2 source_of docs sources.
Proof.
  revert sources. induction docs as [|doc docs IH]; intros sources; cbn.
  - intros [= <-]. constructor.
  - unfold source_entry at 1, ellipsis.
    destruct (field doc "response") as [| | | | | | response | |] eqn:Er;
      try discriminate.
    destruct (map_result source_entry docs) as [rest|e]; [|discriminate].
    intros [= <-]. constructor; [|now apply IH].
    exists response. split; [exact Er|].
    unfold substring. rewrite Nat.sub_0_r.
    replace (drop 0 response) with response by (now destruct response).
    destruct (200 <? String.length response)%nat eqn:E.
    + apply Nat.ltb_lt in E.
      replace (String.length response <=? 200)%nat with false
        by (symmetry; apply Nat.leb_gt; lia).
      reflexivity.
    + apply Nat.ltb_ge in E.
      replace (String.length response <=? 200)%nat with true
        by (symmetry; apply Nat.leb_le; lia).
      now rewrite take_all, append_nil_r.
Qed.

(** The bodies sent for a request that is not taken to the pipeline are
    error bodies. *)
Lemma rejection_bodies w req out body :
  rejection w req = Some out -> In (Json body) out ->
  exists message details, body = error_body message details.
Proof.
  unfold rejection.
  destruct (method req =? "OPTIONS").
  { intros [= <-] [H|[H|[]]]; discriminate. }
  destruct (negb (method req =? "POST")).
  { intros [= <-] [H|[H|[]]]; [discriminate | injection H as <-; eauto]. }
  destruct (negb (truthy (env_value w "FIREWORKS_API_KEY"))
            || negb (truthy (env_value w "MONGODB_URI"))).
  { intros [= <-] [H|[H|[]]]; [discriminate | injection H as <-; eauto]. }
  destruct (parse_body w req) as [rb|e].
  2:{ intros [= <-] [H|[H|[]]]; [discriminate | injection H as <-; eauto]. }
  destruct (get rb "query") as [q|e].
  2:{ intros [= <-] [H|[H|[]]]; [discriminate | injection H as <-; eauto]. }
  destruct (truthy q); [discriminate|].
  intros [= <-] [H|[H|[]]]; [discriminate | injection H as <-; eauto].
Qed.

Lemma error_body_not_answer message details answer sources fb :
  error_body message details <> answer_body answer sources fb.
Proof. unfold error_body. destruct (truthy details); discriminate. Qed.

Lemma error_body_not_fallback message details query e :
  error_body message details <> fallback_body query e.
Proof. unfold error_body. destruct (truthy details); discriminate. Qed.

(** Goes through the members of a list an event is in. *)
Ltac in_cases H :=
  cbn [In] in H; repeat (destruct H as [H|H]); try contradiction.

(** What an accepted request is answered with a body of the shape of
    [answer_body]: a run of all the steps, whose sources are made of the
    documents found. *)
Lemma answered_run w req st answer sources fb :
  In (Json (answer_body answer sources fb)) (trace_of (handler w req st)) ->
  exists fields queryEmbedding searched docs dbs,
    accepted w req fields /\
    embedding_outcome w fields = Normal queryEmbedding /\
    In dbs db_steps /\
    ((searched = [] /\ docs = []) \/
     (exists db,
         searched = [VectorSearch] /\
         aggregates (trace_of (handler w req st))
         = [Aggregate db (collection_of w fields) (search_pipeline queryEmbedding)] /\
         (coll_aggregate w db (collection_of w fields) (search_pipeline queryEmbedding)
          = Ok docs \/ docs = []))) /\
    map_result source_entry docs = Ok sources /\
    steps (trace_of (handler w req st))
    = (dbs ++ [EmbeddingCall; EmbeddingObtained] ++ searched
       ++ [PromptAssembled; LlmCall; LlmCompleted; ResponseWritten])%list.
Proof.
  intros Hin. apply in_outputs in Hin; [|reflexivity].
  destruct (rejection w req) as [out|] eqn:Hr.
  - destruct (rejected_run w req st out Hr) as (tr & E & O & _).
    rewrite E in Hin. cbn [trace_of fst] in Hin. rewrite O in Hin.
    destruct (rejection_bodies w req out _ Hr Hin) as (m & d & Heq).
    symmetry in Heq. now apply error_body_not_answer in Heq.
  - destruct (not_rejected w req Hr) as [fields Ha].
    destruct (accepted_run w req st fields Ha) as (tr & st' & dbs & E & Hdbs & H).
    rewrite E in *. cbn [trace_of fst] in *.
    destruct (embedding_outcome w fields) as [emb|e| |] eqn:Ee; try contradiction.
    + destruct H as (searched & docs & fb' & Hs & H).
      destruct H as [(answer' & sources' & Hsrc & O & S)
                    | (message & _ & [(O & _) | (O & _)])];
        rewrite O in Hin; in_cases Hin; try discriminate.
      injection Hin as <- <- <-.
      exists fields, emb, searched, docs, dbs.
      split; [exact Ha|]. split; [exact Ee|]. split; [exact Hdbs|].
      split; [|split; assumption].
      destruct Hs as [(-> & _ & -> & _) | (d & -> & A & Hd)]; [now left|].
      right. exists d. split; [reflexivity|]. split; [exact A|].
      destruct Hd as [[Hd _] | [Hd _]]; auto.
    + destruct H as (O & _). rewrite O in Hin. cbn in Hin.
      destruct Hin as [H|[H|[]]]; discriminate.
Qed.

(** C2.  In every run of the RAG handler the steps come in the order
    database connection, embedding call, embedding obtained, vector search,
    prompt assembly, LLM call, LLM answer, response, each at most once:
    no vector search comes before the embedding is obtained, no LLM call
    before the prompt is assembled, the response is the last step, and a
    response that carries an answer comes after the LLM call has
    completed. *)
Theorem pipeline_steps_in_order (w : World) (req : Request) (st : ModuleState) :
  let tr := trace_of (handler w req st) in
  subsequence (steps tr) pipeline_order = true /\
  precedes EmbeddingObtained VectorSearch (steps tr) = true /\
  precedes PromptAssembled LlmCall (steps tr) = true /\
  ends_with_response (steps tr) = true /\
  (forall answer sources usedFallback,
      In (Json (answer_body answer sources usedFallback)) tr ->
      precedes LlmCompleted ResponseWritten (steps tr) = true).
Proof.
  cbn zeta. repeat split.
  - now apply (pipeline_runs_checked (fun s => subsequence s pipeline_order)).
  - now apply (pipeline_runs_checked (precedes EmbeddingObtained VectorSearch)).
  - now apply (pipeline_runs_checked (precedes PromptAssembled LlmCall)).
  - now apply (pipeline_runs_checked ends_with_response).
  - intros answer sources fb Hin.
    destruct (answered_run w req st answer sources fb Hin)
      as (fields & emb & searched & docs & dbs & _ & _ & Hdbs & Hs & _ & ->).
    assert (Hsearched : searched = [] \/ searched = [VectorSearch]).
    { destruct Hs as [(-> & _) | (d & -> & _)]; auto. }
    cbn in Hdbs.
    repeat match goal with
           | H : _ \/ _ |- _ => destruct H
           | H : False |- _ => contradiction
           end; subst; reflexivity.
Qed.

(** The theorem applies to the sample world, where the request is
    answered. *)
Lemma pipeline_steps_in_order_witness :
  In (Json (answer_body (JsStr "An answer.")
              [JsObj [("instruction", JsStr "What is RAG?");
                      ("response", JsStr "Retrieval-augmented generation.");
                      ("context", JsStr "Retrieval");
                      ("score", JsReal "0.87")]]
              false))
     (trace_of (handler Sample.world Sample.post_request initial_state)) /\
  precedes LlmCompleted ResponseWritten
    (steps (trace_of (handler Sample.world Sample.post_request initial_state)))
  = true.
Proof.
  assert (Hin : In (Json (answer_body (JsStr "An answer.")
                            [JsObj [("instruction", JsStr "What is RAG?");
                                    ("response", JsStr "Retrieval-augmented generation.");
                                    ("context", JsStr "Retrieval");
                                    ("score", JsReal "0.87")]]
                            false))
                   (trace_of (handler Sample.world Sample.post_request initial_state)))
    by (vm_compute; auto 40).
  split; [exact Hin|].
  exact (proj2 (proj2 (proj2 (proj2
           (pipeline_steps_in_order Sample.world Sample.post_request initial_state))))
           _ _ _ Hin).
Defined.

(** C1.  For a request taken to the pipeline, the handler answers with
    the canned response (status 200, the fixed answer around the query, no
    sources, [fallback] true) when the embedding step throws, and sends no
    canned response when it does not; a request not taken to the pipeline
    gets none either.  In no run is a call to the driver or to the
    Fireworks API made twice. *)
Theorem canned_fallback_only_when_embedding_fails :
  (forall w req st fields,
      accepted w req fields ->
      match embedding_outcome w fields with
      | Thrown embeddingError =>
          outputs (trace_of (handler w req st))
          = [Status 200;
             Json (JsObj [("answer", JsStr (fallback_answer (lookup "query" fields)));
                          ("sources", JsArr []);
                          ("fallback", JsBool true);
                          ("error", JsStr ("Embedding failed: "
                                           ++ exn_message embeddingError))])]
      | _ =>
          forall query e,
            ~ In (Json (fallback_body query e)) (trace_of (handler w req st))
      end)
  /\
  (forall w req st out,
      rejection w req = Some out ->
      forall query e,
        ~ In (Json (fallback_body query e)) (trace_of (handler w req st)))
  /\
  (forall w req st,
      Forall (fun call => occurrences call (steps (trace_of (handler w req st))) <= 1)
             [DbNewClient; DbConnect; DbStats; EmbeddingCall; VectorSearch; LlmCall]).
Proof.
  split; [|split].
  - intros w req st fields Ha.
    destruct (accepted_run w req st fields Ha) as (tr & st' & dbs & E & Hdbs & H).
    rewrite E. cbn [trace_of fst].
    destruct (embedding_outcome w fields) as [emb|e| |]; try contradiction.
    + intros query e Hin. apply in_outputs in Hin; [|reflexivity].
      destruct H as (searched & docs & fb & _ & H).
      destruct H as [(answer & sources & _ & O & _)
                    | (message & _ & [(O & _) | (O & _)])];
        rewrite O in Hin; in_cases Hin; discriminate.
    + now destruct H as (O & _).
  - intros w req st out Hr query e Hin. apply in_outputs in Hin; [|reflexivity].
    destruct (rejected_run w req st out Hr) as (tr & E & O & _).
    rewrite E in Hin. cbn [trace_of fst] in Hin. rewrite O in Hin.
    destruct (rejection_bodies w req out _ Hr Hin) as (m & d & Heq).
    symmetry in Heq. now apply error_body_not_fallback in Heq.
  - intros w req st.
    repeat (apply Forall_cons;
            [ match goal with
              | |- occurrences ?call _ <= 1 =>
                  apply Nat.leb_le;
                  now apply (pipeline_runs_checked
                               (fun s => (occurrences call s <=? 1)%nat))
              end | ]).
    apply Forall_nil.
Qed.

(** The theorem applies to the sample world without the Fireworks API:
    the request is taken to the pipeline and the embedding step throws. *)
Lemma canned_fallback_only_when_embedding_fails_witness :
  accepted Sample.offline_world Sample.post_request
           [("query", JsStr "What is RAG?")] /\
  outputs (trace_of (handler Sample.offline_world Sample.post_request initial_state))
  = [Status 200;
     Json (JsObj [("answer", JsStr (fallback_answer (JsStr "What is RAG?")));
                  ("sources", JsArr []);
                  ("fallback", JsBool true);
                  ("error", JsStr "Embedding failed: request to https://api.fireworks.ai failed")])].
Proof.
  assert (Ha : accepted Sample.offline_world Sample.post_request
                        [("query", JsStr "What is RAG?")])
    by (repeat split).
  split; [exact Ha|].
  exact (proj1 canned_fallback_only_when_embedding_fails
           Sample.offline_world Sample.post_request initial_state
           [("query", JsStr "What is RAG?")] Ha).
Defined.

(** C9.  A response that carries an answer carries, for each document
    found and in the order in which the search returned them, an entry
    with the document's [instruction], [context] and [score] as they are
    and its [response] whole when it has at most 200 characters, and cut
    after 200 characters and followed by three dots otherwise; the
    documents are those the vector search returned, or none. *)
Theorem sources_are_the_documents_found
  (w : World) (req : Request) (st : ModuleState)
  (answer : JsValue) (sources : list JsValue) (usedFallback : bool) :
  In (Json (JsObj [("answer", answer);
                   ("sources", JsArr sources);
                   ("fallback", JsBool usedFallback)]))
     (trace_of (handler w req st)) ->
  exists docs,
    Forall2 source_of docs sources /\
    (docs = [] \/
     exists db coll pipeline,
       In (Aggregate db coll pipeline) (trace_of (handler w req st)) /\
       coll_aggregate w db coll pipeline = Ok docs).
Proof.
  intros Hin.
  destruct (answered_run w req st answer sources usedFallback Hin)
    as (fields & emb & searched & docs & dbs & _ & _ & _ & Hs & Hsrc & _).
  exists docs. split; [now apply map_result_sources|].
  destruct Hs as [(_ & ->) | (d & _ & A & [Hd | ->])]; auto.
  right. exists d, (collection_of w fields), (search_pipeline emb).
  split; [|exact Hd].
  assert (H : In (Aggregate d (collection_of w fields) (search_pipeline emb))
                 (aggregates (trace_of (handler w req st))))
    by (rewrite A; now left).
  now apply filter_In in H.
Qed.

(** The theorem applies to the sample world, whose search returns one
    document. *)
Lemma sources_are_the_documents_found_witness :
  exists docs,
    Forall2 source_of docs
      [JsObj [("instruction", JsStr "What is RAG?");
              ("response", JsStr "Retrieval-augmented generation.");
              ("context", JsStr "Retrieval");
              ("score", JsReal "0.87")]] /\
    (docs = [] \/
     exists db coll pipeline,
       In (Aggregate db coll pipeline)
          (trace_of (handler Sample.world Sample.post_request initial_state)) /\
       coll_aggregate Sample.world db coll pipeline = Ok docs).
Proof.
  apply (sources_are_the_documents_found
           Sample.world Sample.post_request initial_state
           (JsStr "An answer.") _ false).
  vm_compute. auto 40.
Defined.

(** The handler makes at most one [aggregate] call, for a request taken to
    the pipeline whose embedding it has obtained, on the collection of the
    request and with the pipeline of Step 3 around that embedding. *)
Lemma rag_searches_once w req st :
  aggregates (trace_of (handler w req st)) = [] \/
  exists fields queryEmbedding db,
    accepted w req fields /\
    embedding_outcome w fields = Normal queryEmbedding /\
    aggregates (trace_of (handler w req st))
    = [Aggregate db (collection_of w fields) (search_pipeline queryEmbedding)].
Proof.
  destruct (rejection w req) as [out|] eqn:Hr.
  - destruct (rejected_run w req st out Hr) as (tr & -> & _ & _ & A). now left.
  - destruct (not_rejected w req Hr) as [fields Ha].
    destruct (accepted_run w req st fields Ha) as (tr & st' & dbs & E & Hdbs & H).
    rewrite E. cbn [trace_of fst].
    destruct (embedding_outcome w fields) as [emb|e| |] eqn:Ee; try contradiction.
    + destruct H as (searched & docs & fb & [(_ & A & _) | (d & _ & A & _)] & _);
        [now left|].
      right. now exists fields, emb, d.
    + destruct H as (_ & _ & A). now left.
Qed.

End RagFacts.
